(** * Fitness assistant: plan generation, command interpreter, calendar
      export and persistence gateway

    A shallow embedding of the Python sources [fitness_agent.py],
    [calendar_agent.py], [db_manager.py], [interactive_chat.py] and [app.py],
    followed by the properties of the specification that are proved (or
    refuted) on it.

    Conventions.
    - Python [str] is [string]; only the ASCII behaviour of the string
      methods is modelled (bytes above 127 are carried through unchanged).
    - Python [int] is [Z]; [int()] refuses a literal of more than 4300
      digits, and the index of a list is at most [sys.maxsize] in size, as
      in CPython on a 64-bit system.
    - A Python call that may raise is a function into [res]; a [try/except]
      is the [catch] combinator.
    - A [dict] used as a mapping is a [gmap]; a decoded JSON object, where the
      order of the keys is visible to the program, is an association list. *)

From Stdlib Require Import ZArith String Ascii List Bool Lia.
From Stdlib Require Import Numbers.DecimalString Numbers.DecimalZ Numbers.DecimalFacts.
From stdpp Require Import base option list gmap strings.

Import ListNotations.
Local Set Warnings "-register-all".
Open Scope string_scope.
Open Scope Z_scope.

(* ===================================================================== *)
(** * Python built-ins on strings                                          *)
(* ===================================================================== *)

Module Py.

(** [str.isspace] on the ASCII range: TAB, LF, VT, FF, CR, FS, GS, RS, US and
  the blank. *)
Definition isspace (c : ascii) : bool :=
let n := nat_of_ascii c in
((9 <=? n)%nat && (n <=? 13)%nat) || ((28 <=? n)%nat && (n <=? 32)%nat).

Definition isdigit (c : ascii) : bool :=
let n := nat_of_ascii c in (48 <=? n)%nat && (n <=? 57)%nat.

(** [str.lower] on the ASCII range. *)
Definition lower_ascii (c : ascii) : ascii :=
let n := nat_of_ascii c in
if (65 <=? n)%nat && (n <=? 90)%nat then ascii_of_nat (n + 32) else c.

Fixpoint lower (s : string) : string :=
match s with
| EmptyString => EmptyString
| String c r => String (lower_ascii c) (lower r)
end.

(** [s.startswith(p)] *)
Fixpoint startswith (s p : string) {struct p} : bool :=
match p, s with
| EmptyString, _ => true
| String _ _, EmptyString => false
| String a p', String b s' => if Ascii.eqb a b then startswith s' p' else false
end.

(** [s[n:]] for [0 <= n] *)
Fixpoint drop (n : nat) (s : string) : string :=
match n, s with
| O, _ => s
| S _, EmptyString => EmptyString
| S n', String _ r => drop n' r
end.

(** [sub in s] *)
Fixpoint contains (sub s : string) : bool :=
if startswith s sub then true
else match s with
     | EmptyString => false
     | String _ r => contains sub r
     end.

(** [s.split(sep)] for a non-empty separator: the pieces between the
  non-overlapping occurrences of [sep], scanned from the left.  [cur] holds
  the piece being read, reversed, and [skip] the number of characters of a
  separator that are still to be passed over. *)
Fixpoint split_go (sep : string) (skip : nat) (cur : string) (s : string)
: list string :=
match skip with
| S k =>
    match s with
    | EmptyString => [String.rev cur]
    | String _ r => split_go sep k cur r
    end
| O =>
    match s with
    | EmptyString => [String.rev cur]
    | String c r =>
        if startswith s sep
        then String.rev cur :: split_go sep (Nat.pred (String.length sep)) EmptyString r
        else split_go sep O (String c cur) r
    end
end.

Definition split (sep s : string) : list string := split_go sep O EmptyString s.

(** [s.split(sep, 1)]: at most one cut, at the first occurrence of [sep]. *)
Fixpoint split1_go (sep : string) (cur : string) (s : string) : list string :=
match s with
| EmptyString => [String.rev cur]
| String c r =>
    if startswith s sep
    then [String.rev cur; drop (String.length sep) s]
    else split1_go sep (String c cur) r
end.

Definition split1 (sep s : string) : list string := split1_go sep EmptyString s.

(** [s.split()]: the maximal runs of non-blank characters. *)
Fixpoint words_go (cur : option string) (s : string) : list string :=
match s with
| EmptyString =>
    match cur with Some w => [String.rev w] | None => [] end
| String c r =>
    if isspace c
    then match cur with
         | Some w => String.rev w :: words_go None r
         | None => words_go None r
         end
    else words_go (Some (String c (default EmptyString cur))) r
end.

Definition words (s : string) : list string := words_go None s.

Fixpoint lstrip (s : string) : string :=
match s with
| EmptyString => EmptyString
| String c r => if isspace c then lstrip r else s
end.

Fixpoint rstrip (s : string) : string :=
match s with
| EmptyString => EmptyString
| String c r =>
    match rstrip r with
    | EmptyString => if isspace c then EmptyString else String c EmptyString
    | r' => String c r'
    end
end.

(** [s.strip()] *)
Definition strip (s : string) : string := rstrip (lstrip s).

(** [s.replace(old, new)] for a non-empty [old]. *)
Fixpoint replace_go (old new : string) (skip : nat) (s : string) : string :=
match skip with
| S k =>
    match s with
    | EmptyString => EmptyString
    | String _ r => replace_go old new k r
    end
| O =>
    match s with
    | EmptyString => EmptyString
    | String c r =>
        if startswith s old
        then new ++ replace_go old new (Nat.pred (String.length old)) r
        else String c (replace_go old new O r)
    end
end.

Definition replace (old new s : string) : string := replace_go old new O s.

(** [sep.join(l)] *)
Fixpoint join (sep : string) (l : list string) : string :=
match l with
| [] => EmptyString
| [x] => x
| x :: r => x ++ sep ++ join sep r
end.

(** [str(n)] for an [int]. *)
Definition str_of_int (n : Z) : string := NilEmpty.string_of_int (Z.to_int n).

(** The digits of an integer literal as [int(s)] accepts them: single
  underscores may stand between two digits and are dropped.
  [prev] tells whether the previous character was a digit. *)
Fixpoint literal_digits (prev : bool) (s : string) : option string :=
match s with
| EmptyString => if prev then Some EmptyString else None
| String c r =>
    if isdigit c then String c <$> literal_digits true r
    else if Ascii.eqb c "_" then
           (if prev then
              match r with
              | EmptyString => None
              | String d _ => if isdigit d then literal_digits false r else None
              end
            else None)
    else None
end.

(** The interpreter's default limit on the number of digits of a decimal
    literal, [sys.get_int_max_str_digits()]. *)
Definition max_str_digits : Z := 4300.

(** The sign and the digits of the integer literal [s], when it is one. *)
Definition literal (s : string) : option (bool * string) :=
match strip s with
| EmptyString => None
| String c r =>
    let '(neg, body) :=
      if Ascii.eqb c "-" then (true, r)
      else if Ascii.eqb c "+" then (false, r)
      else (false, String c r) in
    ds ← literal_digits false body;
    Some (neg, ds)
end.

(** [int(s)] in base ten; [None] is [ValueError]: [s] is no literal, or it
    has more digits than the interpreter converts. *)
Definition int (s : string) : option Z :=
match literal s with
| Some (neg, ds) =>
    if Z.of_nat (String.length ds) <=? max_str_digits
    then u ← NilEmpty.uint_of_string ds;
         Some (if neg : bool then - Z.of_uint u else Z.of_uint u)
    else None
| None => None
end.

End Py.

(* ===================================================================== *)
(** * Exceptions                                                           *)
(* ===================================================================== *)

(** The exception classes the sources raise or catch.  [Psycopg2Error] is
    [psycopg2.Error] with all its subclasses. *)
Inductive exn_class :=
  | JSONDecodeError | ValueError | IndexError | KeyError | TypeError
  | ValidationError | OverflowError | Psycopg2Error.

Global Instance exn_class_eq_dec : EqDecision exn_class.
Proof. solve_decision. Defined.

(** An exception: its class and the text of [str(e)].  The texts the
    replies of the interpreters can show ([IndexError], [KeyError], the
    [ValueError] of [int]) are Python's; those of [TypeError] and
    [ValidationError] are shortened. *)
Record exn := Exn { exn_class_of : exn_class; exn_str : string }.

Inductive res (A : Type) :=
  | Ok (a : A)
  | Raise (e : exn).
Arguments Ok {A} a.
Arguments Raise {A} e.

Global Instance res_ret : MRet res := fun A a => Ok a.
Global Instance res_bind : MBind res := fun A B f m =>
  match m with Ok a => f a | Raise e => Raise e end.
Global Instance res_fmap : FMap res := fun A B f m =>
  match m with Ok a => Ok (f a) | Raise e => Raise e end.

(** [try: m  except Exception as e: h e] *)
Definition catch {A} (m : res A) (h : exn -> res A) : res A :=
  match m with Ok a => Ok a | Raise e => h e end.

(** [try: m  except (c1, c2, ...) as e: h e]: other classes pass through. *)
Definition catch_only {A} (cs : list exn_class) (m : res A) (h : exn -> res A)
  : res A :=
  match m with
  | Ok a => Ok a
  | Raise e => if bool_decide (exn_class_of e ∈ cs) then h e else Raise e
  end.

Definition raises {A} (m : res A) : Prop :=
  match m with Ok _ => False | Raise _ => True end.

(** Sequencing a list of fallible steps, left to right, stopping at the
    first exception. *)
Fixpoint mapM_res {A B} (f : A -> res B) (l : list A) : res (list B) :=
  match l with
  | [] => Ok []
  | x :: r => y ← f x; ys ← mapM_res f r; Ok (y :: ys)
  end.

(** [sys.maxsize]: the largest index, and the largest length of a list,
    on a 64-bit platform. *)
Definition maxsize : Z := 9223372036854775807.

(** [l[i]] on a Python list: an index that is no index-sized integer is
    refused before the list is looked at; negative indices count from the
    end. *)
Definition list_index {A} (l : list A) (i : Z) : res A :=
  if (i <? - maxsize - 1) || (maxsize <? i)
  then Raise (Exn IndexError "cannot fit 'int' into an index-sized integer")
  else
    let n := Z.of_nat (length l) in
    let j := if i <? 0 then i + n else i in
    if (0 <=? j) && (j <? n)
    then match l !! Z.to_nat j with
         | Some x => Ok x
         | None => Raise (Exn IndexError "list index out of range")
         end
    else Raise (Exn IndexError "list index out of range").

(* ===================================================================== *)
(** * Decoded JSON values                                                  *)
(* ===================================================================== *)

(** What [json.loads] returns.  A [float] is carried by its Python [repr]
    (the shortest text that reads back to it), an object by its items in
    order, with distinct keys. *)
Inductive json :=
  | JNull
  | JBool (b : bool)
  | JInt (n : Z)
  | JFloat (repr : string)
  | JStr (s : string)
  | JList (l : list json)
  | JDict (d : list (string * json)).

Module Dict.
Section Dict.
Context {V : Type}.

(** [d.get(k)] / [k in d] *)
Fixpoint get (k : string) (d : list (string * V)) : option V :=
  match d with
  | [] => None
  | (k', v) :: r => if String.eqb k k' then Some v else get k r
  end.

Definition mem (k : string) (d : list (string * V)) : bool :=
  match get k d with Some _ => true | None => false end.

(** [d[k]] *)
Definition item (k : string) (d : list (string * V)) : res V :=
  match get k d with
  | Some v => Ok v
  | None => Raise (Exn KeyError ("'" ++ k ++ "'"))
  end.

(** [d[k] = v]: an existing key keeps its place. *)
Fixpoint set (k : string) (v : V) (d : list (string * V)) : list (string * V) :=
  match d with
  | [] => [(k, v)]
  | (k', v') :: r =>
      if String.eqb k k' then (k', v) :: r else (k', v') :: set k v r
  end.
End Dict.
End Dict.

Module Repr.

Definition dquote : ascii := ascii_of_nat 34.
Definition squote : ascii := "'"%char.
Definition backslash : ascii := ascii_of_nat 92.

Definition hex_digit (n : nat) : ascii :=
  nth n (list_ascii_of_string "0123456789abcdef") "0"%char.

Fixpoint has_char (c : ascii) (s : string) : bool :=
  match s with
  | EmptyString => false
  | String a r => Ascii.eqb a c || has_char c r
  end.

Definition repr_char (q c : ascii) : string :=
  let n := nat_of_ascii c in
  if Ascii.eqb c backslash then String backslash (String backslash EmptyString)
  else if Ascii.eqb c q then String backslash (String c EmptyString)
  else if (n =? 9)%nat then String backslash "t"
  else if (n =? 10)%nat then String backslash "n"
  else if (n =? 13)%nat then String backslash "r"
  else if (n <? 32)%nat || (n =? 127)%nat
       then String backslash
              (String "x" (String (hex_digit (n / 16)) (String (hex_digit (n mod 16)) EmptyString)))
  else String c EmptyString.

Fixpoint repr_chars (q : ascii) (s : string) : string :=
  match s with
  | EmptyString => EmptyString
  | String c r => repr_char q c ++ repr_chars q r
  end.

(** [repr(s)] of a [str]: single quotes unless the text has a single
    quote and no double quote. *)
Definition repr_str (s : string) : string :=
  let q := if has_char squote s && negb (has_char dquote s) then dquote else squote in
  String q (repr_chars q s ++ String q EmptyString).

(** [repr(v)] of a decoded JSON value. *)
Fixpoint repr (v : json) : string :=
  match v with
  | JNull => "None"
  | JBool true => "True"
  | JBool false => "False"
  | JInt n => Py.str_of_int n
  | JFloat r => r
  | JStr s => repr_str s
  | JList l => "[" ++ Py.join ", " (map repr l) ++ "]"
  | JDict d =>
      "{" ++ Py.join ", " (map (fun kv => repr_str (fst kv) ++ ": " ++ repr (snd kv)) d) ++ "}"
  end.

(** [str(v)] *)
Definition str (v : json) : string :=
  match v with
  | JStr s => s
  | _ => repr v
  end.

End Repr.

(* ===================================================================== *)
(** * fitness_agent.py                                                     *)
(* ===================================================================== *)

Module FitnessAgent.

(** [class WorkoutPlan(BaseModel)] *)
Record WorkoutPlan := mkWorkoutPlan {
  day : string;
  exercises : list (list (string * string));
  duration : string;
  intensity : string
}.

(** [class DietPlan(BaseModel)]; a macro value is a [float], carried by
    its [repr]. *)
Record DietPlan := mkDietPlan {
  meal_type : string;
  foods : list string;
  calories : Z;
  macros : list (string * string)
}.

Definition validation_error {A} : res A :=
  Raise (Exn ValidationError "validation error").

Definition type_error {A} (msg : string) : res A := Raise (Exn TypeError msg).

(** ** Typed construction (pydantic, version 2)

    The constructor, applied to an unpacked [data], needs a mapping; a
    field that is missing or of the wrong type is a [ValidationError]; keys
    that are no field are ignored.  A [str] field takes a string only. *)

Definition field_str (k : string) (d : list (string * json)) : res string :=
  match Dict.get k d with
  | Some (JStr s) => Ok s
  | _ => validation_error
  end.

Definition as_str (v : json) : res string :=
  match v with JStr s => Ok s | _ => validation_error end.

(** One element of a [Dict[str, str]] field. *)
Definition as_str_item (kv : string * json) : res (string * string) :=
  s ← as_str (snd kv); Ok (fst kv, s).

Definition as_str_dict (v : json) : res (list (string * string)) :=
  match v with
  | JDict d => mapM_res as_str_item d
  | _ => validation_error
  end.

Definition field_exercises (d : list (string * json))
  : res (list (list (string * string))) :=
  match Dict.get "exercises" d with
  | Some (JList l) => mapM_res as_str_dict l
  | _ => validation_error
  end.

(** The constructor call [WorkoutPlan] on the unpacked [plan_data]. *)
Definition WorkoutPlan_new (plan_data : json) : res WorkoutPlan :=
  match plan_data with
  | JDict d =>
      dy ← field_str "day" d;
      ex ← field_exercises d;
      du ← field_str "duration" d;
      it ← field_str "intensity" d;
      Ok (mkWorkoutPlan dy ex du it)
  | _ => type_error "argument after ** must be a mapping"
  end.

(** [plan.model_dump()] *)
Definition dump_exercise (e : list (string * string)) : json :=
  JDict (map (fun kv => (fst kv, JStr (snd kv))) e).

Definition WorkoutPlan_model_dump (p : WorkoutPlan) : json :=
  JDict [ ("day", JStr (day p));
          ("exercises", JList (map dump_exercise (exercises p)));
          ("duration", JStr (duration p));
          ("intensity", JStr (intensity p)) ].

(** ** [create_workout_plan] *)

(** Lines 104-112: every value of an exercise that is a dictionary becomes
    its [str]; an exercise that is no dictionary is logged and left. *)
Definition stringify_exercise (exercise : json) : json :=
  match exercise with
  | JDict e => JDict (map (fun kv => (fst kv, JStr (Repr.str (snd kv)))) e)
  | other => other
  end.

(** Lines 99-115, the body of the inner [try].  On a value that is no
    dictionary, [in], the subscript or the unpacking raises [TypeError]. *)
Definition build_workout_plan (plan_data : json) : res WorkoutPlan :=
  match plan_data with
  | JDict d =>
      let d' :=
        match Dict.get "exercises" d with
        | Some (JList l) => Dict.set "exercises" (JList (map stringify_exercise l)) d
        | _ => d
        end in
      WorkoutPlan_new (JDict d')
  | _ => type_error "not a mapping"
  end.

(** Lines 96-120: the loop; an element whose construction raises is logged
    and skipped. *)
Fixpoint collect {A B} (f : A -> res B) (l : list A) : list B :=
  match l with
  | [] => []
  | x :: r =>
      match f x with
      | Ok y => y :: collect f r
      | Raise _ => collect f r
      end
  end.

Fixpoint chars (s : string) : list json :=
  match s with
  | EmptyString => []
  | String c r => JStr (String c EmptyString) :: chars r
  end.

(** [for x in v]: the elements of a list, the keys of an object, the
    characters of a string; anything else is not iterable. *)
Definition iterate (v : json) : res (list json) :=
  match v with
  | JList l => Ok l
  | JDict d => Ok (map (fun kv => JStr (fst kv)) d)
  | JStr s => Ok (chars s)
  | _ => type_error "object is not iterable"
  end.

Definition fallback_exercises : list (list (string * string)) :=
  [ [("name", "Push-ups"); ("sets", "3"); ("reps", "12"); ("rest_period", "60s")];
    [("name", "Squats"); ("sets", "3"); ("reps", "15"); ("rest_period", "60s")];
    [("name", "Plank"); ("sets", "3"); ("reps", "30s"); ("rest_period", "60s")] ].

Definition fallback_day (i : Z) : WorkoutPlan :=
  mkWorkoutPlan ("Day " ++ Py.str_of_int (i + 1)) fallback_exercises
                "45 minutes" "moderate".

(** [_create_fallback_workout_plan]: one record per [i in range(days)]. *)
Definition _create_fallback_workout_plan (days : Z) : list WorkoutPlan :=
  map fallback_day (seqZ 0 days).

(** The text-generation backend followed by [json.loads]: the decoded
    answer to the prompt built from [days] and [fitness_level], or
    [JSONDecodeError].  A backend that does not answer at all is outside
    the model. *)
Definition workout_backend := Z -> string -> res json.

(** [create_workout_plan], lines 88-140. *)
Definition create_workout_plan (llm : workout_backend)
           (days : Z) (fitness_level : string) : list WorkoutPlan :=
  match llm days fitness_level with
  | Ok workout_data =>
      match iterate workout_data with
      | Ok items =>
          match collect build_workout_plan items with
          | [] => _create_fallback_workout_plan days
          | plans => plans
          end
      | Raise _ => _create_fallback_workout_plan days
      end
  | Raise _ => _create_fallback_workout_plan days
  end.

(** ** [create_diet_plan] *)

Definition fallback_meals : list DietPlan :=
  [ mkDietPlan "Breakfast" ["Oatmeal"; "Banana"; "Protein Shake"] 500
               [("protein", "30.0"); ("carbs", "60.0"); ("fat", "10.0")];
    mkDietPlan "Lunch" ["Chicken Breast"; "Brown Rice"; "Broccoli"] 700
               [("protein", "40.0"); ("carbs", "45.0"); ("fat", "15.0")];
    mkDietPlan "Dinner" ["Salmon"; "Sweet Potato"; "Asparagus"] 600
               [("protein", "35.0"); ("carbs", "35.0"); ("fat", "30.0")];
    mkDietPlan "Snack" ["Greek Yogurt"; "Almonds"; "Berries"] 300
               [("protein", "20.0"); ("carbs", "15.0"); ("fat", "15.0")] ].

(** [_create_fallback_diet_plan] *)
Definition _create_fallback_diet_plan : list DietPlan := fallback_meals.

Definition DietPlan_model_dump (p : DietPlan) : json :=
  JDict [ ("meal_type", JStr (meal_type p));
          ("foods", JList (map JStr (foods p)));
          ("calories", JInt (calories p));
          ("macros", JDict (map (fun kv => (fst kv, JFloat (snd kv))) (macros p))) ].

Definition diet_backend := Z -> res json.

Section Diet.

(** Python's floating-point conversions, which this development does not
    compute: [float(text)], giving the [repr] of the number read or
    [ValueError], and [int(x)] of a float, its truncation, or
    [ValueError]/[OverflowError] on a NaN or an infinity. *)
Variable float_of_text : string -> res string.
Variable int_of_float : string -> res Z.

Definition field_foods (d : list (string * json)) : res (list string) :=
  match Dict.get "foods" d with
  | Some (JList l) => mapM_res as_str l
  | _ => validation_error
  end.

(** An [int] field takes an [int], and in pydantic's default (lax) mode a
    [bool] as 0 or 1.  Its conversions of floats and of numeric strings
    are not modelled: the coercion of [create_diet_plan] leaves an [int]
    or a [bool] here, and a dumped plan holds an [int]. *)
Definition field_calories (d : list (string * json)) : res Z :=
  match Dict.get "calories" d with
  | Some (JInt n) => Ok n
  | Some (JBool b) => Ok (if b then 1 else 0)
  | _ => validation_error
  end.

(** One value of the [Dict[str, float]] field: a [float], or an [int]
    converted.  Other kinds are not modelled, as for [field_calories]. *)
Definition as_macro (kv : string * json) : res (string * string) :=
  match snd kv with
  | JFloat r => Ok (fst kv, r)
  | JInt n =>
      match float_of_text (Py.str_of_int n) with
      | Ok r => Ok (fst kv, r)
      | Raise _ => validation_error
      end
  | _ => validation_error
  end.

Definition field_macros (d : list (string * json)) : res (list (string * string)) :=
  match Dict.get "macros" d with
  | Some (JDict m) => mapM_res as_macro m
  | _ => validation_error
  end.

(** The constructor call [DietPlan] on the unpacked [meal_data]. *)
Definition DietPlan_new (meal_data : json) : res DietPlan :=
  match meal_data with
  | JDict d =>
      mt ← field_str "meal_type" d;
      fs ← field_foods d;
      c ← field_calories d;
      m ← field_macros d;
      Ok (mkDietPlan mt fs c m)
  | _ => type_error "argument after ** must be a mapping"
  end.

(** Lines 198-203: [isinstance(x, int)] holds of an [int] and of a
    [bool]. *)
Definition coerce_calories (d : list (string * json)) : res (list (string * json)) :=
  match Dict.get "calories" d with
  | None | Some (JInt _) | Some (JBool _) => Ok d
  | Some v =>
      f ← float_of_text (Py.replace "," "" (Repr.str v));
      n ← int_of_float f;
      Ok (Dict.set "calories" (JInt n) d)
  end.

(** Lines 209-213 *)
Definition coerce_macro (kv : string * json) : res (string * json) :=
  match snd kv with
  | JFloat _ => Ok kv
  | v =>
      f ← float_of_text (Py.replace "," "" (Repr.str v));
      Ok (fst kv, JFloat f)
  end.

(** Lines 206-213 *)
Definition coerce_macros (d : list (string * json)) : res (list (string * json)) :=
  match Dict.get "macros" d with
  | Some (JDict m) =>
      m' ← mapM_res coerce_macro m;
      Ok (Dict.set "macros" (JDict m') d)
  | _ => Ok d
  end.

(** Lines 197-216, the body of the inner [try]. *)
Definition build_diet_plan (meal_data : json) : res DietPlan :=
  match meal_data with
  | JDict d =>
      d1 ← coerce_calories d;
      d2 ← coerce_macros d1;
      DietPlan_new (JDict d2)
  | _ => type_error "not a mapping"
  end.

(** [create_diet_plan], lines 186-237. *)
Definition create_diet_plan (llm : diet_backend) (daily_calories : Z)
  : list DietPlan :=
  match llm daily_calories with
  | Ok diet_data =>
      match iterate diet_data with
      | Ok items =>
          match collect build_diet_plan items with
          | [] => _create_fallback_diet_plan
          | plans => plans
          end
      | Raise _ => _create_fallback_diet_plan
      end
  | Raise _ => _create_fallback_diet_plan
  end.

End Diet.

(** ** [validate_workout_plan] and [refine_workout_context] *)

(** The backend of the validation call, followed by [json.loads]. *)
Definition validate_backend := list WorkoutPlan -> res json.

(** [validate_workout_plan], lines 324-345: the value under [is_valid] of
    the decoded object, as it is.  On an answer that is no object [.get] is
    an [AttributeError], caught like the decode error; [False] is
    [JBool false]. *)
Definition validate_workout_plan (llm : validate_backend) (plan : list WorkoutPlan)
  : json :=
  match llm plan with
  | Ok (JDict validation) =>
      match Dict.get "is_valid" validation with
      | Some is_valid => is_valid
      | None => JBool false
      end
  | Ok _ => JBool false
  | Raise _ => JBool false
  end.

(** The backend of the refinement call, followed by [json.loads]. *)
Definition refine_backend := string -> list WorkoutPlan -> res json.

(** [refine_workout_context], lines 368-422. *)
Definition refine_workout_context (llm : refine_backend) (user_feedback : string)
           (current_plan : list WorkoutPlan) : list WorkoutPlan :=
  match llm user_feedback current_plan with
  | Ok refined_data =>
      match iterate refined_data with
      | Ok items =>
          match collect build_workout_plan items with
          | [] => current_plan
          | plans => plans
          end
      | Raise _ => current_plan
      end
  | Raise _ => current_plan
  end.

End FitnessAgent.

(* ===================================================================== *)
(** * calendar_agent.py                                                    *)
(* ===================================================================== *)

Module Datetime.

(** A naive [datetime.datetime]. *)
Record datetime := mkDatetime {
  year : Z; month : Z; dom : Z;
  hour : Z; minute : Z; second : Z; microsecond : Z
}.

Definition MAXORDINAL : Z := 3652059.

Definition is_leap (y : Z) : bool :=
  (y mod 4 =? 0) && (negb (y mod 100 =? 0) || (y mod 400 =? 0)).

Definition days_before_year (y : Z) : Z :=
  let p := y - 1 in p * 365 + p / 4 - p / 100 + p / 400.

Definition DAYS_IN_MONTH : list Z :=
  [31; 28; 31; 30; 31; 30; 31; 31; 30; 31; 30; 31].

Definition DAYS_BEFORE_MONTH : list Z :=
  [0; 31; 59; 90; 120; 151; 181; 212; 243; 273; 304; 334].

(** The tables are indexed by the month number, from 1. *)
Definition table (t : list Z) (m : Z) : Z := nth (Z.to_nat (m - 1)) t 0.

Definition days_before_month (y m : Z) : Z :=
  table DAYS_BEFORE_MONTH m + (if (2 <? m) && is_leap y then 1 else 0).

(** [date.toordinal]: 1 for the first of January of year 1. *)
Definition ymd2ord (y m d : Z) : Z :=
  days_before_year y + days_before_month y m + d.

Definition DI400Y : Z := 146097.
Definition DI100Y : Z := 36524.
Definition DI4Y : Z := 1461.

(** The month and the day of the [n]-th day of a year, counted from 0
    (the last lines of [_ord2ymd]). *)
Definition month_day (n : Z) (leapyear : bool) : Z * Z :=
  let m := Z.shiftr (n + 50) 5 in
  let preceding :=
    table DAYS_BEFORE_MONTH m + (if (2 <? m) && leapyear then 1 else 0) in
  if n <? preceding
  then
    let m := m - 1 in
    let preceding :=
      preceding - (table DAYS_IN_MONTH m + (if (m =? 2) && leapyear then 1 else 0)) in
    (m, n - preceding + 1)
  else (m, n - preceding + 1).

(** [date.fromordinal] *)
Definition ord2ymd (n : Z) : Z * Z * Z :=
  let n := n - 1 in
  let n400 := n / DI400Y in let n := n mod DI400Y in
  let y := n400 * 400 + 1 in
  let n100 := n / DI100Y in let n := n mod DI100Y in
  let n4 := n / DI4Y in let n := n mod DI4Y in
  let n1 := n / 365 in let n := n mod 365 in
  let y := y + n100 * 100 + n4 * 4 + n1 in
  if (n1 =? 4) || (n100 =? 4) then (y - 1, 12, 31)
  else
    let leapyear := (n1 =? 3) && (negb (n4 =? 24) || (n100 =? 3)) in
    let '(m, d) := month_day n leapyear in
    (y, m, d).

Definition toordinal (t : datetime) : Z := ymd2ord (year t) (month t) (dom t).

(** [t + timedelta(days=i)]: the clock time is kept; a date outside years
    1 to 9999 is an [OverflowError]. *)
Definition add_days (t : datetime) (i : Z) : res datetime :=
  let o := toordinal t + i in
  if (0 <? o) && (o <=? MAXORDINAL)
  then let '(y, m, d) := ord2ymd o in
       Ok (mkDatetime y m d (hour t) (minute t) (second t) (microsecond t))
  else Raise (Exn OverflowError "date value out of range").

(** [timedelta(minutes=m)], kept in minutes; the day count of a
    [timedelta] is bounded by 999999999 on both sides. *)
Definition timedelta_minutes (m : Z) : res Z :=
  let days := m / 1440 in
  if (-999999999 <=? days) && (days <=? 999999999) then Ok m
  else Raise (Exn OverflowError "days out of range for timedelta").

Definition pad2 (n : Z) : string :=
  if n <? 10 then "0" ++ Py.str_of_int n else Py.str_of_int n.

(** [t.strftime('%Y%m%d')], for the years from 1000 on (how an earlier
    year is padded depends on the C library). *)
Definition strftime_Ymd (t : datetime) : string :=
  Py.str_of_int (year t) ++ pad2 (month t) ++ pad2 (dom t).

(** ** Adding days and hours *)

(** The seconds of [t] since the start of day 0 of the calendar. *)
Definition timestamp (t : datetime) : Z :=
  toordinal t * 86400 + hour t * 3600 + minute t * 60 + second t.

(** [t + timedelta(days=d, seconds=s)] for [0 <= s]: [datetime.__add__]
    turns [t] into a [timedelta] from day 0, adds, and splits the sum into
    the day and the time of the day. *)
Definition add_timedelta (t : datetime) (d s : Z) : res datetime :=
  if 999999999 <? Z.abs (d + s / 86400)
  then Raise (Exn OverflowError
                ("days=" ++ Py.str_of_int (d + s / 86400)
                 ++ "; must have magnitude <= 999999999"))
  else
    let total := hour t * 3600 + minute t * 60 + second t + s in
    let o := toordinal t + d + total / 86400 in
    let r := total mod 86400 in
    if (0 <? o) && (o <=? MAXORDINAL)
    then let '(y, m, dd) := ord2ymd o in
         Ok (mkDatetime y m dd (r / 3600) (r mod 3600 / 60) (r mod 60)
                        (microsecond t))
    else Raise (Exn OverflowError "date value out of range").

Fixpoint zeros (n : nat) : string :=
  match n with
  | O => EmptyString
  | S k => String "0" (zeros k)
  end.

(** ["%0wd" % n] for [0 <= n] *)
Definition pad (w : nat) (n : Z) : string :=
  let digits := Py.str_of_int n in
  zeros (w - String.length digits) ++ digits.

(** [t.isoformat()] of a naive [datetime]. *)
Definition isoformat (t : datetime) : string :=
  pad 4 (year t) ++ "-" ++ pad 2 (month t) ++ "-" ++ pad 2 (dom t) ++ "T"
  ++ pad 2 (hour t) ++ ":" ++ pad 2 (minute t) ++ ":" ++ pad 2 (second t)
  ++ (if microsecond t =? 0 then "" else "." ++ pad 6 (microsecond t)).

(** [t.strftime('%Y-%m-%d')], for the years from 1000 on. *)
Definition strftime_Y_m_d (t : datetime) : string :=
  Py.str_of_int (year t) ++ "-" ++ pad2 (month t) ++ "-" ++ pad2 (dom t).

End Datetime.

Module CalendarAgent.
Import FitnessAgent Datetime.

Definition nl : string := String (ascii_of_nat 10) EmptyString.

(** An [ics.Event], as far as the exporter fills it. *)
Record Event := mkEvent {
  ev_name : string;
  ev_description : string;
  ev_begin : datetime;
  ev_duration : Z;          (* minutes *)
  ev_uid : string
}.

(** Lines 75-78: one exercise line of the description. *)
Definition exercise_line (exercise : list (string * string)) : res string :=
  name ← Dict.item "name" exercise;
  sets ← Dict.item "sets" exercise;
  reps ← Dict.item "reps" exercise;
  let line := "- " ++ name ++ ": " ++ sets ++ " sets x " ++ reps ++ " reps" in
  let line :=
    match Dict.get "rest_period" exercise with
    | Some r => line ++ " (Rest: " ++ r ++ ")"
    | None => line
    end in
  Ok (line ++ nl).

(** Lines 72-78 *)
Definition describe (workout : WorkoutPlan) : res string :=
  lines ← mapM_res exercise_line (exercises workout);
  Ok ("Intensity: " ++ intensity workout ++ nl ++ "Exercises:" ++ nl
      ++ Py.join "" lines).

(** Lines 68-91: the event of the plan at index [i]; [uid] is the value
    [uuid4] returns for it. *)
Definition make_event (start_date : datetime) (minutes : Z) (uid : string)
           (i : Z) (workout : WorkoutPlan) : res Event :=
  description ← describe workout;
  event_date ← add_days start_date i;
  d ← timedelta_minutes minutes;
  Ok (mkEvent ("Workout: " ++ day workout) description event_date d uid).

Fixpoint make_events (start_date : datetime) (minutes : Z) (uuid4 : nat -> string)
         (i : nat) (plans : list WorkoutPlan) : res (list Event) :=
  match plans with
  | [] => Ok []
  | w :: r =>
      e ← make_event start_date minutes (uuid4 i) (Z.of_nat i) w;
      es ← make_events start_date minutes uuid4 (S i) r;
      Ok (e :: es)
  end.

(** [s.endswith("/")] *)
Fixpoint ends_with_slash (s : string) : bool :=
  match s with
  | EmptyString => false
  | String c EmptyString => Ascii.eqb c "/"
  | String _ r => ends_with_slash r
  end.

(** [os.path.join(a, p)] on a POSIX system. *)
Definition path_join (a p : string) : string :=
  if Py.startswith p "/" then p
  else if String.eqb a "" || ends_with_slash a then a ++ p
  else a ++ "/" ++ p.

(** Lines 102-103: [open(filepath, "w")] and [f.write(str(cal))], as the
    file system and the [ics] library answer them for a path and the
    events of the calendar: the file is written, or an exception is raised
    (no such directory, a path that is no path, a full disk). *)
Definition file_writer := string -> list Event -> res unit.

(** [create_workout_calendar]: the events added to the calendar, in the
    order of the plan, and the path of the file written.  The identifiers
    [uuid4] draws are taken distinct, so that the calendar's event set
    keeps every event. *)
Definition create_workout_calendar (output_dir : string) (uuid4 : nat -> string)
           (write : file_writer)
           (workout_plans : list WorkoutPlan) (start_date : datetime)
           (calendar_name : string) (workout_duration_minutes : Z)
  : res (list Event * string) :=
  events ← make_events start_date workout_duration_minutes uuid4 0 workout_plans;
  let filename :=
    Py.replace " " "_" calendar_name ++ "_" ++ strftime_Ymd start_date ++ ".ics" in
  let filepath := path_join output_dir filename in
  _ ← write filepath events;
  Ok (events, filepath).

Definition default_calendar_name : string := "Workout Schedule".
Definition default_duration_minutes : Z := 60.

(** Lines 97-99: the name of the file written. *)
Definition workout_calendar_filename (calendar_name : string) (start_date : datetime)
  : string :=
  Py.replace " " "_" calendar_name ++ "_" ++ strftime_Ymd start_date ++ ".ics".

End CalendarAgent.

(* ===================================================================== *)
(** * fitness_agent.py: the mock schedule                                  *)
(* ===================================================================== *)

Module FitnessSchedule.
Import Datetime.

(** One entry of the mock schedule, lines 287-299. *)
Definition schedule_entry (summary start_iso end_iso : string) : json :=
  JDict [ ("summary", JStr summary);
          ("start", JDict [("dateTime", JStr start_iso); ("timeZone", JStr "UTC")]);
          ("end", JDict [("dateTime", JStr end_iso); ("timeZone", JStr "UTC")]) ].

(** The entry for [i], or the [OverflowError] of one of its two sums. *)
Definition mock_entry (start_date : datetime) (i : Z) : res json :=
  starts ← add_timedelta start_date i 0;
  ends ← add_timedelta start_date i 3600;
  Ok (schedule_entry ("Workout: Day " ++ Py.str_of_int (i + 1))
                     (isoformat starts) (isoformat ends)).

(** [get_workout_schedule], lines 282-301. *)
Definition get_workout_schedule (start_date : datetime) (days : Z)
  : res (list json) :=
  mapM_res (mock_entry start_date) (seqZ 0 days).

End FitnessSchedule.

(* ===================================================================== *)
(** * db_manager.py                                                        *)
(* ===================================================================== *)

Module DatabaseManager.
Import Datetime.

(** A row of [workout_plans] or [diet_plans], as [RealDictCursor] gives
    it. *)
Record SavedPlan := mkSavedPlan {
  plan_id : Z;
  plan_name : string;
  plan_data : json;
  created_at : datetime
}.

(** The statements the gateway sends, with their parameters. *)
Inductive statement :=
  | SelectUser (username : string)
  | InsertUser (username : string)
  | SelectProfile (user_id : Z)
  | SelectProfileId (user_id : Z)
  | UpdateProfile (user_id : Z) (profile_data : gmap string json)
  | InsertProfile (user_id : Z) (profile_data : gmap string json)
  | InsertWorkoutPlan (user_id : Z) (name : string) (data : json)
  | SelectWorkoutPlans (user_id : Z)
  | InsertDietPlan (user_id : Z) (name : string) (data : json)
  | SelectDietPlans (user_id : Z).

(** An open [psycopg2] connection, seen from the gateway: what each call
    on it (or on its cursor, after a statement) answers or raises. *)
Record connection := mkConnection {
  cursor : res unit;
  execute : statement -> res unit;
  fetchone_id : statement -> res (option Z);
  fetchone_profile : statement -> res (option (gmap string json));
  fetchall : statement -> res (list SavedPlan);
  commit : res unit;
  rollback : res unit
}.

(** [row[0]] on the answer of [fetchone]. *)
Definition first_column (row : option Z) : res Z :=
  match row with
  | Some id => Ok id
  | None => Raise (Exn TypeError "'NoneType' object is not subscriptable")
  end.

(** [try: body  except psycopg2.Error: rollback; return sentinel] *)
Definition absorb_rollback {A} (c : connection) (sentinel : A) (body : res A)
  : res A :=
  catch_only [Psycopg2Error] body (fun _ => _ ← rollback c; Ok sentinel).

(** [try: body  except psycopg2.Error: return sentinel] *)
Definition absorb {A} (sentinel : A) (body : res A) : res A :=
  catch_only [Psycopg2Error] body (fun _ => Ok sentinel).

Definition get_or_create_user_body (c : connection) (username : string)
  : res (Z * bool) :=
  _ ← cursor c;
  _ ← execute c (SelectUser username);
  result ← fetchone_id c (SelectUser username);
  match result with
  | Some id => Ok (id, false)
  | None =>
      _ ← execute c (InsertUser username);
      row ← fetchone_id c (InsertUser username);
      user_id ← first_column row;
      _ ← commit c;
      Ok (user_id, true)
  end.

Definition get_or_create_user (conn : option connection) (username : string)
  : res (Z * bool) :=
  match conn with
  | None => Ok (-1, false)
  | Some c => absorb_rollback c (-1, false) (get_or_create_user_body c username)
  end.

Definition get_profile_body (c : connection) (user_id : Z)
  : res (gmap string json) :=
  _ ← cursor c;
  _ ← execute c (SelectProfile user_id);
  result ← fetchone_profile c (SelectProfile user_id);
  match result with
  | Some profile_data => Ok profile_data
  | None => Ok ∅
  end.

Definition get_profile (conn : option connection) (user_id : Z)
  : res (gmap string json) :=
  match conn with
  | None => Ok ∅
  | Some c => absorb ∅ (get_profile_body c user_id)
  end.

Definition save_profile_body (c : connection) (user_id : Z)
           (profile_data : gmap string json) : res bool :=
  _ ← cursor c;
  _ ← execute c (SelectProfileId user_id);
  result ← fetchone_id c (SelectProfileId user_id);
  _ ← match result with
      | Some _ => execute c (UpdateProfile user_id profile_data)
      | None => execute c (InsertProfile user_id profile_data)
      end;
  _ ← commit c;
  Ok true.

Definition save_profile (conn : option connection) (user_id : Z)
           (profile_data : gmap string json) : res bool :=
  match conn with
  | None => Ok false
  | Some c => absorb_rollback c false (save_profile_body c user_id profile_data)
  end.

Definition insert_plan_body (c : connection) (stmt : statement) : res Z :=
  _ ← cursor c;
  _ ← execute c stmt;
  row ← fetchone_id c stmt;
  plan_id ← first_column row;
  _ ← commit c;
  Ok plan_id.

Definition save_workout_plan (conn : option connection) (user_id : Z)
           (plan_name : string) (plan_data : json) : res Z :=
  match conn with
  | None => Ok (-1)
  | Some c =>
      absorb_rollback c (-1)
        (insert_plan_body c (InsertWorkoutPlan user_id plan_name plan_data))
  end.

Definition save_diet_plan (conn : option connection) (user_id : Z)
           (plan_name : string) (plan_data : json) : res Z :=
  match conn with
  | None => Ok (-1)
  | Some c =>
      absorb_rollback c (-1)
        (insert_plan_body c (InsertDietPlan user_id plan_name plan_data))
  end.

Definition select_plans_body (c : connection) (stmt : statement)
  : res (list SavedPlan) :=
  _ ← cursor c;
  _ ← execute c stmt;
  fetchall c stmt.

Definition get_workout_plans (conn : option connection) (user_id : Z)
  : res (list SavedPlan) :=
  match conn with
  | None => Ok []
  | Some c => absorb [] (select_plans_body c (SelectWorkoutPlans user_id))
  end.

Definition get_diet_plans (conn : option connection) (user_id : Z)
  : res (list SavedPlan) :=
  match conn with
  | None => Ok []
  | Some c => absorb [] (select_plans_body c (SelectDietPlans user_id))
  end.

End DatabaseManager.

(* ===================================================================== *)
(** * Parameter extraction shared by the two interpreters                  *)
(* ===================================================================== *)

Module Params.

Definition nl : string := String (ascii_of_nat 10) EmptyString.

(** A string given by the bytes of its UTF-8 text in the source file. *)
Definition of_bytes (l : list Z) : string :=
  string_of_list_ascii (map (fun b => ascii_of_nat (Z.to_nat b)) l).

(** [l[i]] for a literal index [i >= 0]. *)
Definition item {A} (l : list A) (i : nat) : res A :=
  match l !! i with
  | Some x => Ok x
  | None => Raise (Exn IndexError "list index out of range")
  end.

(** [int(s)], with the text of its [ValueError]. *)
Definition int (s : string) : res Z :=
  match Py.int s with
  | Some n => Ok n
  | None =>
      Raise (Exn ValueError
               (match Py.literal s with
                | Some (_, ds) =>
                    "Exceeds the limit (4300 digits) for integer string conversion: value has "
                    ++ Py.str_of_int (Z.of_nat (String.length ds))
                    ++ " digits; use sys.set_int_max_str_digits() to increase the limit"
                | None =>
                    "invalid literal for int() with base 10: " ++ Repr.repr_str s
                end))
  end.

(** [text.split(key)[1].split()[0]]: the first word after the first [key]. *)
Definition word_after (key text : string) : res string :=
  part ← item (Py.split key text) 1;
  item (Py.words part) 0.

(** [text.split(key)[1].strip()]: all that follows the first [key], up to
    the next one. *)
Definition rest_after (key text : string) : res string :=
  Py.strip <$> item (Py.split key text) 1.

(** The profile updates: the [key: value] segments between commas.
    A later segment with the key of an earlier one replaces its value. *)
Definition add_pair (updates : list (string * string)) (pair : string)
  : list (string * string) :=
  if Py.contains ":" pair
  then match Py.split1 ":" pair with
       | [key; value] => Dict.set (Py.strip key) (Py.strip value) updates
       | _ => updates
       end
  else updates.

Definition parse_updates (message : string) : list (string * string) :=
  let update_text := Py.strip (Py.replace "update profile" "" message) in
  fold_left add_pair (Py.split "," update_text) [].

(** [for key, value in updates.items(): profile[key] = value] *)
Definition merge (updates : list (string * string)) (profile : gmap string json)
  : gmap string json :=
  fold_left (fun p kv => <[fst kv := JStr (snd kv)]> p) updates profile.

(** The plan name of a save command: all that follows [name:] in the
    lower-cased message, or [default]. *)
Definition name_param (default message : string) : res string :=
  if Py.contains "name:" (Py.lower message)
  then catch_only [ValueError; IndexError]
         (rest_after "name:" (Py.lower message))
         (fun _ => Ok default)
  else Ok default.

(** [calories_part = text.split("calories:")[1].split()[0]], read as an
    [int], or 2200. *)
Definition calories_param (message : string) : res Z :=
  if Py.contains "calories:" message
  then catch_only [ValueError; IndexError]
         (cal_part ← word_after "calories:" message; int cal_part)
         (fun _ => Ok 2200)
  else Ok 2200.

End Params.

(* ===================================================================== *)
(** * interactive_chat.py                                                  *)
(* ===================================================================== *)

Module InteractiveChat.
Import FitnessAgent.

(** The fields of an [InteractiveChat] the handlers below read or write. *)
Record chat := mkChat {
  conn : option DatabaseManager.connection;
  user_id : Z;
  user_profile : gmap string json;
  current_workout_plan : option (list WorkoutPlan);
  chat_history : list (string * string)
}.

Definition say (c : chat) (response : string) : chat :=
  mkChat (conn c) (user_id c) (user_profile c) (current_workout_plan c)
         (chat_history c ++ [("assistant", response)]).

(** Lines 190-198 *)
Definition days_param (user_input : string) : res Z :=
  if Py.contains "days:" user_input
  then catch_only [ValueError; IndexError]
         (days_part ← Params.word_after "days:" user_input; Params.int days_part)
         (fun _ => Ok 4)
  else Ok 4.

(** Lines 200-208: the word after [level:] is taken as it stands. *)
Definition level_param (user_input : string) : res string :=
  if Py.contains "level:" (Py.lower user_input)
  then catch_only [ValueError; IndexError]
         (level_part ← Params.rest_after "level:" (Py.lower user_input);
          Params.item (Py.words level_part) 0)
         (fun _ => Ok "intermediate")
  else Ok "intermediate".

Definition calendar_mark : string := Params.of_bytes [240; 159; 147; 133].
Definition clock_mark : string := Params.of_bytes [226; 143; 177; 239; 184; 143].
Definition muscle_mark : string := Params.of_bytes [240; 159; 146; 170].

(** Line 227 *)
Definition exercise_line (exercise : list (string * string)) : res string :=
  name ← Dict.item "name" exercise;
  sets ← Dict.item "sets" exercise;
  reps ← Dict.item "reps" exercise;
  Ok ("- " ++ name ++ ": " ++ sets ++ " sets x " ++ reps ++ " reps" ++ Params.nl).

(** Lines 222-228 *)
Definition plan_text (plan : WorkoutPlan) : res string :=
  lines ← mapM_res exercise_line (exercises plan);
  Ok (calendar_mark ++ " " ++ day plan ++ ":" ++ Params.nl
      ++ clock_mark ++ " Duration: " ++ duration plan ++ Params.nl
      ++ muscle_mark ++ " Intensity: " ++ intensity plan ++ Params.nl
      ++ "Exercises:" ++ Params.nl ++ Py.join "" lines ++ Params.nl).

(** Lines 190-213: the arguments [create_workout_plan] is called with. *)
Definition workout_params (user_input : string) : res (Z * string) :=
  days ← days_param user_input;
  fitness_level ← level_param user_input;
  Ok (days, fitness_level).

Definition set_plan (c : chat) (p : list WorkoutPlan) : chat :=
  mkChat (conn c) (user_id c) (user_profile c) (Some p) (chat_history c).

Definition set_profile (c : chat) (p : gmap string json) : chat :=
  mkChat (conn c) (user_id c) p (current_workout_plan c) (chat_history c).

(** [handle_workout_creation]: the reply, or the exception that leaves the
    handler, and the chat afterwards. *)
Definition handle_workout_creation (llm : workout_backend) (user_input : string)
           (c : chat) : res string * chat :=
  match workout_params user_input with
  | Raise e => (Raise e, c)
  | Ok (days, fitness_level) =>
      let workout_plan := create_workout_plan llm days fitness_level in
      let c := set_plan c workout_plan in
      match mapM_res plan_text workout_plan with
      | Raise e => (Raise e, c)
      | Ok texts =>
          let response :=
            "I've created a " ++ Py.str_of_int days ++ "-day workout plan for "
            ++ fitness_level ++ " fitness level:" ++ Params.nl ++ Params.nl
            ++ Py.join "" texts
            ++ "You can ask me to schedule these workouts, save the plan, export to a calendar file, or modify the plan if needed." in
          (Ok response, say c response)
      end
  end.

(** [handle_profile_update]: the profile in memory is updated before the
    gateway is called. *)
Definition handle_profile_update (user_input : string) (c : chat)
  : res string * chat :=
  let updates := Params.parse_updates user_input in
  let c := set_profile c (Params.merge updates (user_profile c)) in
  match (if 0 <? user_id c
         then DatabaseManager.save_profile (conn c) (user_id c) (user_profile c)
         else Ok false) with
  | Raise e => (Raise e, c)
  | Ok _ =>
      let response :=
        "I've updated your profile with the following information:"
        ++ Params.nl ++ Params.nl
        ++ Py.join "" (map (fun kv => "- " ++ fst kv ++ ": " ++ snd kv ++ Params.nl)
                           updates)
        ++ Params.nl
        ++ "I'll use this information to better tailor your fitness recommendations."
        ++ (if 0 <? user_id c
            then Params.nl ++ "Your profile has been saved to the database."
            else "") in
      (Ok response, say c response)
  end.

(** Lines 240-249 of [handle_diet_creation] *)
Definition calories_param (user_input : string) : res Z :=
  Params.calories_param user_input.

(** Lines 417-424 of [handle_save_workout] *)
Definition save_workout_name (user_input : string) (plan : list WorkoutPlan)
  : res string :=
  Params.name_param
    (Py.str_of_int (Z.of_nat (length plan)) ++ "-Day Workout Plan") user_input.

(** The handlers of [process_message], in the order their tests are made. *)
Inductive handler :=
  | HandleWorkoutCreation | HandleDietCreation | HandleWorkoutScheduling
  | HandleCalendarExport | ViewProfile | HandleProfileUpdate
  | HandleSaveWorkout | HandleSaveDiet | ListWorkoutPlans | ListDietPlans
  | ShowHelp | Goodbye | GeneralChat.

(** [process_message], lines 109-145: the handler a message is given to. *)
Definition route (user_input : string) : handler :=
  let m := Py.lower user_input in
  if Py.startswith m "create workout plan" then HandleWorkoutCreation
  else if Py.startswith m "create diet plan" then HandleDietCreation
  else if Py.startswith m "schedule workout" then HandleWorkoutScheduling
  else if Py.startswith m "export calendar" || Py.startswith m "create calendar"
  then HandleCalendarExport
  else if Py.startswith m "view profile" then ViewProfile
  else if Py.startswith m "update profile" then HandleProfileUpdate
  else if Py.startswith m "save workout" then HandleSaveWorkout
  else if Py.startswith m "save diet" then HandleSaveDiet
  else if Py.startswith m "list workout plans" || String.eqb m "list workouts"
  then ListWorkoutPlans
  else if Py.startswith m "list diet plans" || String.eqb m "list diets"
  then ListDietPlans
  else if Py.startswith m "help" then ShowHelp
  else if String.eqb m "exit" || String.eqb m "quit" then Goodbye
  else GeneralChat.

End InteractiveChat.

(* ===================================================================== *)
(** * app.py                                                               *)
(* ===================================================================== *)

Module App.
Import FitnessAgent DatabaseManager.

(** The entries of [st.session_state] the chat commands read or write. *)
Record session := mkSession {
  db_manager : option connection;
  user_id : Z;
  current_workout_plan : option (list WorkoutPlan);
  current_diet_plan : option (list DietPlan);
  user_profile : gmap string json;
  saved_workout_plans : list SavedPlan;
  saved_diet_plans : list SavedPlan
}.

Definition set_workout (s : session) (p : list WorkoutPlan) : session :=
  mkSession (db_manager s) (user_id s) (Some p) (current_diet_plan s)
            (user_profile s) (saved_workout_plans s) (saved_diet_plans s).

Definition set_diet (s : session) (p : list DietPlan) : session :=
  mkSession (db_manager s) (user_id s) (current_workout_plan s) (Some p)
            (user_profile s) (saved_workout_plans s) (saved_diet_plans s).

Definition set_profile (s : session) (p : gmap string json) : session :=
  mkSession (db_manager s) (user_id s) (current_workout_plan s)
            (current_diet_plan s) p (saved_workout_plans s) (saved_diet_plans s).

(** The rules of [process_chat_message], in the order they are tried. *)
Inductive command :=
  | CreateWorkout | CreateDiet | SaveWorkout | SaveDiet | ListWorkout
  | ListDiet | LoadWorkout | LoadDiet | ViewProfile | UpdateProfile
  | ExportCalendar | ScheduleWorkout | Help | Chat.

Definition dispatch (message : string) : command :=
  let m := Py.lower message in
  if Py.startswith m "create workout" || Py.startswith m "create workout plan"
  then CreateWorkout
  else if Py.startswith m "create diet" || Py.startswith m "create diet plan"
  then CreateDiet
  else if Py.startswith m "save workout" then SaveWorkout
  else if Py.startswith m "save diet" then SaveDiet
  else if Py.startswith m "list workout" || String.eqb m "list workouts"
  then ListWorkout
  else if Py.startswith m "list diet" || String.eqb m "list diets" then ListDiet
  else if Py.startswith m "load workout" then LoadWorkout
  else if Py.startswith m "load diet" then LoadDiet
  else if Py.startswith m "view profile" || String.eqb m "profile" then ViewProfile
  else if Py.startswith m "update profile" then UpdateProfile
  else if Py.startswith m "export calendar" || Py.startswith m "create calendar"
  then ExportCalendar
  else if Py.startswith m "schedule workout" then ScheduleWorkout
  else if String.eqb m "help" then Help
  else Chat.

(** The pictograms, by the bytes they have in the source file. *)
Definition check_mark : string := Params.of_bytes [195; 162; 197; 147; 226; 128; 166].
Definition cross_mark : string := Params.of_bytes [195; 162; 197; 146].
Definition calendar_mark : string :=
  Params.of_bytes [195; 176; 197; 184; 226; 128; 156; 226; 128; 166].
Definition clock_mark : string :=
  Params.of_bytes [195; 162; 194; 177; 195; 175; 194; 184].
Definition muscle_mark : string :=
  Params.of_bytes [195; 176; 197; 184; 226; 128; 153; 194; 170].

Definition apology : string :=
  "I'm sorry, I encountered an error processing your request. Please try again or type 'help' to see available commands.".

(** Lines 269-272 *)
Definition exercise_line (exercise : list (string * string)) : res string :=
  name ← Dict.item "name" exercise;
  sets ← Dict.item "sets" exercise;
  reps ← Dict.item "reps" exercise;
  let info := "- " ++ name ++ ": " ++ sets ++ " sets x " ++ reps ++ " reps" in
  let info :=
    match Dict.get "rest_period" exercise with
    | Some r => info ++ " (Rest: " ++ r ++ ")"
    | None => info
    end in
  Ok (info ++ Params.nl).

Definition plan_text (plan : WorkoutPlan) : res string :=
  lines ← mapM_res exercise_line (exercises plan);
  Ok (calendar_mark ++ " " ++ day plan ++ ":" ++ Params.nl
      ++ clock_mark ++ " Duration: " ++ duration plan ++ Params.nl
      ++ muscle_mark ++ " Intensity: " ++ intensity plan ++ Params.nl
      ++ "Exercises:" ++ Params.nl ++ Py.join "" lines ++ Params.nl).

(** [format_workout_plan] *)
Definition format_workout_plan (workout_plan : list WorkoutPlan) : res string :=
  Py.join "" <$> mapM_res plan_text workout_plan.

(** [try: m  except (handled): return on_handled], inside the
    [except Exception] that closes [process_chat_message]. *)
Definition reply_of (handled : list exn_class) (on_handled : string)
           (m : res string) : string :=
  match m with
  | Ok r => r
  | Raise e => if bool_decide (exn_class_of e ∈ handled) then on_handled else apology
  end.

(** Lines 843-848 *)
Definition days_param (message : string) : res Z :=
  if Py.contains "days:" message
  then catch_only [ValueError; IndexError]
         (days_part ← Params.word_after "days:" message; Params.int days_part)
         (fun _ => Ok 4)
  else Ok 4.

Definition levels : list string := ["beginner"; "intermediate"; "advanced"].

(** Lines 850-857 *)
Definition level_param (message : string) : res string :=
  if Py.contains "level:" (Py.lower message)
  then catch_only [ValueError; IndexError]
         (level_part ← Params.rest_after "level:" (Py.lower message);
          level_value ← Params.item (Py.words level_part) 0;
          Ok (if bool_decide (level_value ∈ levels) then level_value
              else "intermediate"))
         (fun _ => Ok "intermediate")
  else Ok "intermediate".

(** Lines 966-973: the 0-based index named by a load command. *)
Definition plan_index (message : string) : res Z :=
  number_part ← (if Py.contains ":" message
                 then Params.rest_after ":" message
                 else Params.rest_after "plan" message);
  n ← Params.int number_part;
  Ok (n - 1).

(** [load_workout_plan] *)
Definition load_workout_plan (plan_index : Z) (s : session)
  : (bool * string) * session :=
  match saved_workout_plans s with
  | [] => ((false, "No saved workout plans"), s)
  | saved =>
      match (selected_plan ← list_index saved plan_index;
             days ← iterate (plan_data selected_plan);
             workout_plans ← mapM_res WorkoutPlan_new days;
             Ok (selected_plan, workout_plans)) with
      | Ok (selected_plan, workout_plans) =>
          ((true, "Loaded workout plan: " ++ plan_name selected_plan),
           set_workout s workout_plans)
      | Raise e => ((false, exn_str e), s)
      end
  end.

Definition no_saved_workouts : string :=
  "You don't have any saved workout plans yet. Create a plan and then say 'save workout' to save it.".
Definition no_saved_diets : string :=
  "You don't have any saved diet plans yet. Create a plan and then say 'save diet' to save it.".
Definition which_workout : string :=
  "I couldn't understand which plan to load. Please say 'load workout plan: 1' (using the number from the list).".
Definition which_diet : string :=
  "I couldn't understand which plan to load. Please say 'load diet plan: 1' (using the number from the list).".

(** Lines 962-985 *)
Definition load_workout_command (message : string) (s : session)
  : string * session :=
  match saved_workout_plans s with
  | [] => (no_saved_workouts, s)
  | _ =>
      match plan_index message with
      | Raise e => (reply_of [ValueError; IndexError] which_workout (Raise e), s)
      | Ok i =>
          let '((success, message_result), s') := load_workout_plan i s in
          if success
          then (reply_of [ValueError; IndexError] which_workout
                  (plan_details ← format_workout_plan
                                    (default [] (current_workout_plan s'));
                   Ok (check_mark ++ " " ++ message_result ++ Params.nl
                       ++ Params.nl ++ plan_details)), s')
          else (cross_mark ++ " " ++ message_result, s')
      end
  end.

(** Lines 840-857: the arguments [create_workout_plan] is called with. *)
Definition workout_params (message : string) : res (Z * string) :=
  days ← days_param message;
  level ← level_param message;
  Ok (days, level).

(** Lines 835-867 *)
Definition create_workout_command (llm : workout_backend) (message : string)
           (s : session) : string * session :=
  match workout_params message with
  | Raise _ => (apology, s)
  | Ok (days, level) =>
      let result := create_workout_plan llm days level in
      let s' := set_workout s result in
      (reply_of [] apology
         (plan_details ← format_workout_plan result;
          Ok (check_mark ++ " I've created a " ++ Py.str_of_int days
              ++ "-day workout plan for " ++ level ++ " fitness level:"
              ++ Params.nl ++ Params.nl ++ plan_details ++ Params.nl ++ Params.nl
              ++ "You can now:" ++ Params.nl
              ++ "- Say 'save workout name: My Plan' to save it" ++ Params.nl
              ++ "- Say 'schedule workout' to see scheduling options" ++ Params.nl
              ++ "- Say 'export calendar' to export to a calendar file")),
       s')
  end.

(** [update_profile] *)
Definition update_profile (profile_data : list (string * string)) (s : session)
  : (bool * string) * session :=
  let s' := set_profile s (Params.merge profile_data (user_profile s)) in
  match save_profile (db_manager s') (user_id s') (user_profile s') with
  | Ok success =>
      ((success, if success then "Profile updated successfully"
                 else "Failed to update profile"), s')
  | Raise e => ((false, exn_str e), s')
  end.

(** Lines 1025-1049 *)
Definition update_profile_command (message : string) (s : session)
  : string * session :=
  match Params.parse_updates message with
  | [] =>
      ("Please specify what to update, for example: update profile age: 30, weight: 70kg, goals: lose weight", s)
  | updates =>
      let '((success, message_result), s') := update_profile updates s in
      if success
      then ("I've updated your profile with the following information:"
            ++ Params.nl ++ Params.nl
            ++ Py.join "" (map (fun kv => "- **" ++ fst kv ++ "**: " ++ snd kv
                                          ++ Params.nl) updates), s')
      else (cross_mark ++ " " ++ message_result, s')
  end.

Definition plate_mark : string :=
  Params.of_bytes [195; 176; 197; 184; 194; 189; 195; 175; 194; 184].

(** Lines 281-287 *)
Definition meal_text (meal : DietPlan) : res string :=
  protein ← Dict.item "protein" (macros meal);
  carbs ← Dict.item "carbs" (macros meal);
  fat ← Dict.item "fat" (macros meal);
  Ok (plate_mark ++ " " ++ meal_type meal ++ ":" ++ Params.nl
      ++ "Calories: " ++ Py.str_of_int (calories meal) ++ Params.nl
      ++ "Macros: Protein: " ++ protein ++ "g, Carbs: " ++ carbs
      ++ "g, Fat: " ++ fat ++ "g" ++ Params.nl
      ++ "Foods:" ++ Params.nl
      ++ Py.join "" (map (fun food => "- " ++ food ++ Params.nl) (foods meal))
      ++ Params.nl).

(** [format_diet_plan] *)
Definition format_diet_plan (diet_plan : list DietPlan) : res string :=
  Py.join "" <$> mapM_res meal_text diet_plan.

Section Process.

(** Python's [float(text)], as in [FitnessAgent]. *)
Variable float_of_text : string -> res string.

(** The text-generation backend of the Plan Generator. *)
Variable llm : workout_backend.

(** The rules of [process_chat_message] that are not spelled out here;
    each of them returns a reply. *)
Variable other : command -> string -> session -> string * session.

(** [load_diet_plan] *)
Definition load_diet_plan (plan_index : Z) (s : session)
  : (bool * string) * session :=
  match saved_diet_plans s with
  | [] => ((false, "No saved diet plans"), s)
  | saved =>
      match (selected_plan ← list_index saved plan_index;
             meals ← iterate (plan_data selected_plan);
             diet_plans ← mapM_res (DietPlan_new float_of_text) meals;
             Ok (selected_plan, diet_plans)) with
      | Ok (selected_plan, diet_plans) =>
          ((true, "Loaded diet plan: " ++ plan_name selected_plan),
           set_diet s diet_plans)
      | Raise e => ((false, exn_str e), s)
      end
  end.

(** Lines 988-1009 *)
Definition load_diet_command (message : string) (s : session)
  : string * session :=
  match saved_diet_plans s with
  | [] => (no_saved_diets, s)
  | _ =>
      match plan_index message with
      | Raise e => (reply_of [ValueError; IndexError] which_diet (Raise e), s)
      | Ok i =>
          let '((success, message_result), s') := load_diet_plan i s in
          if success
          then (reply_of [ValueError; IndexError] which_diet
                  (plan_details ← format_diet_plan
                                    (default [] (current_diet_plan s'));
                   Ok (check_mark ++ " " ++ message_result ++ Params.nl
                       ++ Params.nl ++ plan_details)), s')
          else (cross_mark ++ " " ++ message_result, s')
      end
  end.

(** [process_chat_message]: the reply and the session after it.  Every
    path ends in a reply: what a rule raises is turned into [apology] by
    the closing [except Exception]. *)
Definition process_chat_message (message : string) (s : session)
  : string * session :=
  match dispatch message with
  | CreateWorkout => create_workout_command llm message s
  | LoadWorkout => load_workout_command message s
  | LoadDiet => load_diet_command message s
  | UpdateProfile => update_profile_command message s
  | c => other c message s
  end.

End Process.

(** ** The other rules of [process_chat_message] *)

Definition set_saved_workouts (s : session) (l : list SavedPlan) : session :=
  mkSession (db_manager s) (user_id s) (current_workout_plan s)
            (current_diet_plan s) (user_profile s) l (saved_diet_plans s).

Definition set_saved_diets (s : session) (l : list SavedPlan) : session :=
  mkSession (db_manager s) (user_id s) (current_workout_plan s)
            (current_diet_plan s) (user_profile s) (saved_workout_plans s) l.

(** [save_workout_plan], lines 118-145.  What the gateway raises is caught
    and returned as the message. *)
Definition save_workout_plan (plan_name : string) (s : session)
  : (bool * string) * session :=
  match current_workout_plan s with
  | None | Some [] => ((false, "No workout plan to save"), s)
  | Some plans =>
      let plan_data := JList (map WorkoutPlan_model_dump plans) in
      match DatabaseManager.save_workout_plan (db_manager s) (user_id s)
                                              plan_name plan_data with
      | Raise e => ((false, exn_str e), s)
      | Ok plan_id =>
          if 0 <? plan_id
          then match get_workout_plans (db_manager s) (user_id s) with
               | Raise e => ((false, exn_str e), s)
               | Ok workout_plans =>
                   ((true, "Workout plan '" ++ plan_name ++ "' saved successfully"),
                    match workout_plans with
                    | [] => s
                    | _ => set_saved_workouts s workout_plans
                    end)
               end
          else ((false, "Failed to save workout plan"), s)
      end
  end.

(** [save_diet_plan], lines 149-176 *)
Definition save_diet_plan (plan_name : string) (s : session)
  : (bool * string) * session :=
  match current_diet_plan s with
  | None | Some [] => ((false, "No diet plan to save"), s)
  | Some plans =>
      let plan_data := JList (map DietPlan_model_dump plans) in
      match DatabaseManager.save_diet_plan (db_manager s) (user_id s)
                                           plan_name plan_data with
      | Raise e => ((false, exn_str e), s)
      | Ok plan_id =>
          if 0 <? plan_id
          then match get_diet_plans (db_manager s) (user_id s) with
               | Raise e => ((false, exn_str e), s)
               | Ok diet_plans =>
                   ((true, "Diet plan '" ++ plan_name ++ "' saved successfully"),
                    match diet_plans with
                    | [] => s
                    | _ => set_saved_diets s diet_plans
                    end)
               end
          else ((false, "Failed to save diet plan"), s)
      end
  end.

Definition no_workout_to_save : string :=
  "You don't have a workout plan to save. Let's create one first! Try saying 'Create workout plan'.".
Definition no_diet_to_save : string :=
  "You don't have a diet plan to save. Let's create one first! Try saying 'Create diet plan'.".

Definition marked (success : bool) (message_result : string) : string :=
  (if success then check_mark else cross_mark) ++ " " ++ message_result.

(** Lines 899-905: the name a workout plan is saved under. *)
Definition save_workout_name (message : string) (plan : list WorkoutPlan)
  : res string :=
  Params.name_param
    (Py.str_of_int (Z.of_nat (length plan)) ++ "-Day Workout Plan") message.

(** Lines 894-912 *)
Definition save_workout_command (message : string) (s : session)
  : string * session :=
  match current_workout_plan s with
  | None | Some [] => (no_workout_to_save, s)
  | Some plan =>
      match save_workout_name message plan with
      | Raise _ => (apology, s)
      | Ok plan_name =>
          let '((success, message_result), s') := save_workout_plan plan_name s in
          (marked success message_result, s')
      end
  end.

(** Lines 920-926: [today] is [datetime.now()]. *)
Definition save_diet_name (today : Datetime.datetime) (message : string)
  : res string :=
  Params.name_param ("Diet Plan (" ++ Datetime.strftime_Y_m_d today ++ ")") message.

(** Lines 915-933 *)
Definition save_diet_command (today : Datetime.datetime) (message : string)
           (s : session) : string * session :=
  match current_diet_plan s with
  | None | Some [] => (no_diet_to_save, s)
  | Some _ =>
      match save_diet_name today message with
      | Raise _ => (apology, s)
      | Ok plan_name =>
          let '((success, message_result), s') := save_diet_plan plan_name s in
          (marked success message_result, s')
      end
  end.

(** Lines 943-944: the line of the plan at index [i] of a listing. *)
Definition list_line (i : nat) (plan : SavedPlan) : string :=
  Py.str_of_int (Z.of_nat i + 1) ++ ". " ++ plan_name plan ++ " (Created: "
  ++ Datetime.strftime_Y_m_d (created_at plan) ++ ")" ++ Params.nl.


(** Lines 950-959 *)
Definition list_diet_command (s : session) : string * session :=
  match saved_diet_plans s with
  | [] => (no_saved_diets, s)
  | saved =>
      ("Here are your saved diet plans:" ++ Params.nl ++ Params.nl
       ++ Py.join "" (imap list_line saved) ++ Params.nl
       ++ "To load a specific plan, say 'load diet plan: 1' (using the number from the list).",
       s)
  end.

(** [get_recent_chat_context]: nothing below two messages, else the last
    three. *)
Definition get_recent_chat_context (chat_messages : list (string * string))
  : list (string * string) :=
  if (length chat_messages <? 2)%nat then []
  else drop (length chat_messages - 3) chat_messages.

Section DietRule.

(** Python's floating-point conversions and the backend of the diet
    generator, as in [FitnessAgent]. *)
Variable float_of_text : string -> res string.
Variable int_of_float : string -> res Z.
Variable diet_llm : diet_backend.

(** Lines 874-881 *)
Definition calories_param (message : string) : res Z :=
  Params.calories_param message.


End DietRule.

End App.

(* ===================================================================== *)
(** * Predicates used in the statements                                    *)
(* ===================================================================== *)

Module Spec.
Import FitnessAgent.

(** Every character of [s] satisfies [P]. *)
Fixpoint all_chars (P : ascii -> bool) (s : string) : bool :=
  match s with
  | EmptyString => true
  | String c r => P c && all_chars P r
  end.

Definition not_colon (c : ascii) : bool := negb (Ascii.eqb c ":").
Definition not_space (c : ascii) : bool := negb (Py.isspace c).
Definition digit_or_minus (c : ascii) : bool := Py.isdigit c || Ascii.eqb c "-".

(** An exercise of the data model: it names the exercise, the sets and the
    repetitions. *)
Definition exercise_ok (e : list (string * string)) : bool :=
  Dict.mem "name" e && Dict.mem "sets" e && Dict.mem "reps" e.

Definition workout_ok (p : WorkoutPlan) : bool := forallb exercise_ok (exercises p).


(** The month and day [month_day] gives for day [r] of a year count [r]
    days from the first of January. *)
Definition month_day_ok (leap : bool) (r : Z) : bool :=
  let '(m, d) := Datetime.month_day r leap in
  (Datetime.table Datetime.DAYS_BEFORE_MONTH m
   + (if (2 <? m) && leap then 1 else 0) + d =? r + 1).

(** The elements of a decoded answer that survive construction. *)
Definition survivors {A} (build : json -> res A) (items : list json) : list A :=
  omap (fun x => match build x with Ok p => Some p | Raise _ => None end) items.

(** The generation backend failed: its answer is no JSON, is not iterable,
    or has no element that survives construction. *)
Definition generation_failed {A} (build : json -> res A) (answer : res json)
  : Prop :=
  match answer with
  | Raise _ => True
  | Ok data =>
      match iterate data with
      | Raise _ => True
      | Ok items => Forall (fun x => raises (build x)) items
      end
  end.

Definition not_blank (c : ascii) : bool := negb (Ascii.eqb c " ").







(** The time of the day of a [datetime]: hours below 24, minutes and
    seconds below 60. *)
Definition clock_ok (t : Datetime.datetime) : Prop :=
  0 <= Datetime.hour t < 24 /\ 0 <= Datetime.minute t < 60
  /\ 0 <= Datetime.second t < 60.

(** The day of ordinal [o], at the time of the day of [t]. *)
Definition on_day (t : Datetime.datetime) (o : Z) : Datetime.datetime :=
  let '(y, m, d) := Datetime.ord2ymd o in
  Datetime.mkDatetime y m d (Datetime.hour t) (Datetime.minute t)
                      (Datetime.second t) (Datetime.microsecond t).

Definition with_hour (t : Datetime.datetime) (h : Z) : Datetime.datetime :=
  Datetime.mkDatetime (Datetime.year t) (Datetime.month t) (Datetime.dom t) h
                      (Datetime.minute t) (Datetime.second t)
                      (Datetime.microsecond t).

(** One hour after the time of [t] on the day of ordinal [o]: the next
    hour of that day, or the first hour of the next day. *)
Definition hour_after (t : Datetime.datetime) (o : Z) : Datetime.datetime :=
  if Datetime.hour t <? 23
  then with_hour (on_day t o) (Datetime.hour t + 1)
  else with_hour (on_day t (o + 1)) 0.

(** A profile update as it is stored: no blank around the key or the
    value, and no colon in the key. *)
Definition tidy (kv : string * string) : Prop :=
  Py.strip (fst kv) = fst kv /\ Py.strip (snd kv) = snd kv
  /\ all_chars not_colon (fst kv) = true.

(** [c] is no upper-case letter: [str.lower] leaves it. *)
Definition lower_fixed (c : ascii) : bool := Ascii.eqb (Py.lower_ascii c) c.

(** The rule of [app.py] that answers to a handler of
    [interactive_chat.py], for the handlers that are commands of both. *)
Definition app_rule (h : InteractiveChat.handler) : option App.command :=
  match h with
  | InteractiveChat.HandleWorkoutCreation => Some App.CreateWorkout
  | InteractiveChat.HandleDietCreation => Some App.CreateDiet
  | InteractiveChat.HandleWorkoutScheduling => Some App.ScheduleWorkout
  | InteractiveChat.HandleCalendarExport => Some App.ExportCalendar
  | InteractiveChat.ViewProfile => Some App.ViewProfile
  | InteractiveChat.HandleProfileUpdate => Some App.UpdateProfile
  | InteractiveChat.HandleSaveWorkout => Some App.SaveWorkout
  | InteractiveChat.HandleSaveDiet => Some App.SaveDiet
  | InteractiveChat.ListWorkoutPlans => Some App.ListWorkout
  | InteractiveChat.ListDietPlans => Some App.ListDiet
  | InteractiveChat.ShowHelp | InteractiveChat.Goodbye
  | InteractiveChat.GeneralChat => None
  end.

End Spec.

(* ===================================================================== *)
(** * Concrete inputs                                                      *)
(* ===================================================================== *)

Module Examples.
Import FitnessAgent DatabaseManager Datetime.

(** A decoded answer of two elements: the first is a complete day, the
    second lacks the exercises, the duration and the intensity. *)
Definition good_day : json :=
  JDict [ ("day", JStr "Day 1"); ("exercises", JList []);
          ("duration", JStr "45 minutes"); ("intensity", JStr "moderate") ].

Definition bad_day : json := JDict [ ("day", JStr "Day 2") ].

Definition partial_answer : workout_backend :=
  fun _ _ => Ok (JList [good_day; bad_day]).

(** A backend whose text is no JSON. *)
Definition decode_error : exn := Exn JSONDecodeError "Expecting value".
Definition garbled : workout_backend := fun _ _ => Raise decode_error.

(** A diet answer with no usable element: a string, and an object
    without foods, calories and macros. *)
Definition useless_meals : diet_backend :=
  fun _ => Ok (JList [JStr "oops"; JDict [("meal_type", JStr "Lunch")]]).

(** A [float] that reads nothing, for inputs without numbers to read. *)
Definition no_float : string -> res string :=
  fun s => Raise (Exn ValueError ("could not convert string to float: " ++ Repr.repr_str s)).
Definition no_trunc : string -> res Z :=
  fun _ => Raise (Exn ValueError "cannot convert float NaN to integer").

(** The start of the example export: 2024-01-01, at midnight. *)
Definition new_year_2024 : datetime := mkDatetime 2024 1 1 0 0 0 0.

Definition fixed_uuid : nat -> string := fun i => "uid-" ++ Py.str_of_int (Z.of_nat i).

(** A connection the server has dropped: every call fails with a
    [psycopg2] error, the rollback too. *)
Definition server_gone : exn :=
  Exn Psycopg2Error "server closed the connection unexpectedly".
Definition already_closed : exn := Exn Psycopg2Error "connection already closed".

Definition lost_connection : connection :=
  mkConnection (Ok tt) (fun _ => Raise server_gone) (fun _ => Raise server_gone)
               (fun _ => Raise server_gone) (fun _ => Raise server_gone)
               (Raise already_closed) (Raise already_closed).

(** A connection whose driver refuses a text with a NUL character, with
    a [ValueError]. *)
Definition nul_text : exn :=
  Exn ValueError "A string literal cannot contain NUL (0x00) characters.".

Definition nul_rejecting : connection :=
  mkConnection (Ok tt) (fun _ => Raise nul_text) (fun _ => Ok None)
               (fun _ => Ok None) (fun _ => Ok []) (Ok tt) (Ok tt).

Definition nul_name : string := "a" ++ String (ascii_of_nat 0) "b".

(** A connection on which every statement violates a constraint, and
    the rollback completes. *)
Definition violation : exn := Exn Psycopg2Error "violates foreign key constraint".

Definition rejecting : connection :=
  mkConnection (Ok tt) (fun _ => Raise violation) (fun _ => Ok None)
               (fun _ => Ok None) (fun _ => Ok []) (Ok tt) (Ok tt).

(** A backend that writes the arguments of its prompt into its answer:
    the level as the day label, the day count as the duration. *)
Definition echo_backend : workout_backend :=
  fun days level =>
    Ok (JList [JDict [ ("day", JStr level); ("exercises", JList []);
                       ("duration", JStr (Py.str_of_int days));
                       ("intensity", JStr "moderate") ]]).

Definition fresh_chat : InteractiveChat.chat :=
  InteractiveChat.mkChat None (-1) ∅ None [].

Definition fresh_session : App.session :=
  App.mkSession None (-1) None None ∅ [] [].

(** Two saved workout plans, newest first, and one saved diet plan. *)
Definition push_day : WorkoutPlan :=
  mkWorkoutPlan "Push" [[("name", "Bench press"); ("sets", "4"); ("reps", "8")]]
                "50 minutes" "high".
Definition pull_day : WorkoutPlan :=
  mkWorkoutPlan "Pull" [[("name", "Row"); ("sets", "4"); ("reps", "10")]]
                "40 minutes" "moderate".

(** The same days and the fallback meals as a JSONB column gives them
    back: the keys of every object sorted, shorter keys first. *)
Definition push_row : json :=
  JDict [ ("day", JStr "Push"); ("duration", JStr "50 minutes");
          ("exercises",
           JList [JDict [("name", JStr "Bench press"); ("reps", JStr "8");
                         ("sets", JStr "4")]]);
          ("intensity", JStr "high") ].
Definition pull_row : json :=
  JDict [ ("day", JStr "Pull"); ("duration", JStr "40 minutes");
          ("exercises",
           JList [JDict [("name", JStr "Row"); ("reps", JStr "10");
                         ("sets", JStr "4")]]);
          ("intensity", JStr "moderate") ].

Definition pull_as_stored : WorkoutPlan :=
  mkWorkoutPlan "Pull" [[("name", "Row"); ("reps", "10"); ("sets", "4")]]
                "40 minutes" "moderate".

Definition meal_as_stored (m : DietPlan) : DietPlan :=
  mkDietPlan (meal_type m) (foods m) (calories m) (rev (macros m)).

Definition meal_row (m : DietPlan) : json :=
  JDict [ ("foods", JList (map JStr (foods m)));
          ("macros", JDict (map (fun kv => (fst kv, JFloat (snd kv))) (macros m)));
          ("calories", JInt (calories m));
          ("meal_type", JStr (meal_type m)) ].

Definition meals_as_stored : list DietPlan := map meal_as_stored fallback_meals.

Definition saved_push : SavedPlan :=
  mkSavedPlan 12 "push" (JList [push_row]) new_year_2024.
Definition saved_pull : SavedPlan :=
  mkSavedPlan 11 "pull" (JList [pull_row]) new_year_2024.
Definition saved_meals : SavedPlan :=
  mkSavedPlan 5 "cut" (JList (map meal_row meals_as_stored)) new_year_2024.

Definition returning_session : App.session :=
  App.mkSession None 3 None None ∅ [saved_push; saved_pull] [saved_meals].

(** The rules of [process_chat_message] that are not modelled, standing
    for any reply. *)
Definition other_rules : App.command -> string -> App.session -> string * App.session :=
  fun _ message s => (message, s).

(** A day as a model may write it: the count of sets as a number, the
    repetitions as a list, a flag and a null. *)
Definition loose_exercise : list (string * json) :=
  [ ("name", JStr "Squats"); ("sets", JInt 3);
    ("reps", JList [JInt 10; JInt 8]); ("warmup", JBool true);
    ("rest_period", JNull) ].

Definition loose_day : list (string * json) :=
  [ ("day", JStr "Monday"); ("exercises", JList (map JDict [loose_exercise]));
    ("duration", JStr "30 minutes"); ("intensity", JStr "low");
    ("notes", JInt 7) ].

(** A backend that answers with the dump of two days, whatever it is
    asked. *)
Definition two_days : workout_backend :=
  fun _ _ => Ok (JList (map WorkoutPlan_model_dump [push_day; pull_day])).

Definition four_meals : diet_backend :=
  fun _ => Ok (JList (map DietPlan_model_dump fallback_meals)).

Definition garbled_refinement : refine_backend := fun _ _ => Raise decode_error.

(** A plan whose second day has an exercise without a name. *)
Definition nameless_day : WorkoutPlan :=
  mkWorkoutPlan "Legs" [[("exercise", "Lunges"); ("sets", "3"); ("reps", "12")]]
                "30 minutes" "moderate".

(** The last evening of 2024. *)
Definition new_years_eve : datetime := mkDatetime 2024 12 31 23 30 0 0.

(** A file system on which every write succeeds. *)
Definition writable : CalendarAgent.file_writer := fun _ _ => Ok tt.

(** A backend whose answer has one day with an exercise that is not
    named. *)
Definition nameless_answer : workout_backend :=
  fun _ _ =>
    Ok (JList [JDict [ ("day", JStr "Legs");
                       ("exercises",
                        JList [JDict [("exercise", JStr "Lunges"); ("sets", JInt 3);
                                      ("reps", JInt 12)]]);
                       ("duration", JStr "30 minutes");
                       ("intensity", JStr "moderate") ]]).

End Examples.

(* ===================================================================== *)
(** * Facts about the string built-ins                                     *)
(* ===================================================================== *)

Section StringFacts.
Import Spec.
Local Arguments Ascii.eqb : simpl never.
Local Arguments Py.isspace : simpl never.

Lemma sapp_nil_l (t : string) : "" ++ t = t.
Proof. reflexivity. Qed.

Lemma sapp_cons (c : ascii) (s t : string) : String c s ++ t = String c (s ++ t).
Proof. reflexivity. Qed.

Lemma sapp_nil_r (s : string) : s ++ "" = s.
Proof. induction s as [|c s IH]; [done|]. by rewrite sapp_cons, IH. Qed.

Lemma sapp_assoc (s t u : string) : (s ++ t) ++ u = s ++ (t ++ u).
Proof. induction s as [|c s IH]; [done|]. by rewrite !sapp_cons, IH. Qed.

Lemma rev_app_app (s t : string) : String.rev_app s t = String.rev s ++ t.
Proof.
  unfold String.rev. revert t.
  induction s as [|c s IH]; intros t; simpl; [done|].
  rewrite (IH (String c t)), (IH (String c "")).
  by rewrite sapp_assoc.
Qed.

Lemma rev_cons (c : ascii) (s : string) :
  String.rev (String c s) = String.rev s ++ String c "".
Proof. unfold String.rev at 1. simpl. apply rev_app_app. Qed.

Lemma all_chars_app P (s t : string) :
  all_chars P (s ++ t) = all_chars P s && all_chars P t.
Proof.
  induction s as [|c s IH]; [done|].
  rewrite sapp_cons. simpl. by rewrite IH, andb_assoc.
Qed.

Lemma all_chars_impl (P Q : ascii -> bool) (s : string) :
  (forall c, P c = true -> Q c = true) ->
  all_chars P s = true -> all_chars Q s = true.
Proof.
  intros HPQ. induction s as [|c s IH]; simpl; [done|].
  intros [Hc Hs]%andb_prop. by rewrite (HPQ _ Hc), IH.
Qed.







Lemma lstrip_rstrip (s : string) :
  Py.lstrip s = s -> Py.lstrip (Py.rstrip s) = Py.rstrip s.
Proof.
  destruct s as [|c s]; simpl; [done|].
  destruct (Py.isspace c) eqn:Hc.
  - intros H. exfalso.
    assert (Hlen : forall u, (String.length (Py.lstrip u) <= String.length u)%nat).
    { induction u as [|d u IHu]; simpl; [lia|].
      destruct (Py.isspace d); simpl; lia. }
    specialize (Hlen s). rewrite H in Hlen. simpl in Hlen. lia.
  - intros _. destruct (Py.rstrip s); simpl; by rewrite Hc.
Qed.

Lemma lstrip_idem (s : string) : Py.lstrip (Py.lstrip s) = Py.lstrip s.
Proof.
  induction s as [|c s IH]; simpl; [done|].
  destruct (Py.isspace c) eqn:Hc; [done|]. simpl. by rewrite Hc.
Qed.

Lemma rstrip_idem (s : string) : Py.rstrip (Py.rstrip s) = Py.rstrip s.
Proof.
  induction s as [|c s IH]; simpl; [done|].
  destruct (Py.rstrip s) as [|d r] eqn:Hr.
  - destruct (Py.isspace c) eqn:Hc; simpl; [done|]. by rewrite Hc.
  - remember (String d r) as u. simpl. rewrite IH. by subst u.
Qed.

Lemma strip_idem (s : string) : Py.strip (Py.strip s) = Py.strip s.
Proof.
  unfold Py.strip.
  rewrite (lstrip_rstrip (Py.lstrip s)) by apply lstrip_idem.
  apply rstrip_idem.
Qed.


End StringFacts.

(** ** Decimal texts *)

Section DecimalFacts.
Import Spec.


Lemma digit_or_minus_plain (c : ascii) :
  digit_or_minus c = true -> not_colon c = true /\ not_space c = true.
Proof. destruct c as [[] [] [] [] [] [] [] []]; vm_compute; intuition congruence. Qed.

Lemma uint_digits (d : Decimal.uint) :
  all_chars Py.isdigit (NilEmpty.string_of_uint d) = true.
Proof. induction d; simpl; auto. Qed.



Lemma str_of_int_chars (n : Z) :
  all_chars digit_or_minus (Py.str_of_int n) = true.
Proof.
  assert (Hd : forall d, all_chars digit_or_minus (NilEmpty.string_of_uint d) = true).
  { intros d. apply (all_chars_impl Py.isdigit); [|apply uint_digits].
    intros c Hc. unfold digit_or_minus. by rewrite Hc. }
  unfold Py.str_of_int. destruct (Z.to_int n) as [d|d]; simpl; auto.
Qed.


Lemma str_of_int_no_space (n : Z) : all_chars not_space (Py.str_of_int n) = true.
Proof.
  apply (all_chars_impl digit_or_minus); [|apply str_of_int_chars].
  intros c Hc. by apply digit_or_minus_plain.
Qed.

(** ** The digits of a number and its size *)









End DecimalFacts.

(* ===================================================================== *)
(** * Plan Generator                                                       *)
(* ===================================================================== *)

Section PlanGenerator.
Import FitnessAgent Spec Examples.

Lemma collect_survivors {A} (build : json -> res A) (items : list json) :
  collect build items = survivors build items.
Proof.
  unfold survivors. induction items as [|x items IH]; simpl; [done|].
  destruct (build x); simpl; by rewrite IH.
Qed.

Lemma collect_all_raise {A} (build : json -> res A) (items : list json) :
  Forall (fun x => raises (build x)) items -> collect build items = [].
Proof.
  induction 1 as [|x items Hx _ IH]; simpl; [done|].
  destruct (build x); [destruct Hx|done].
Qed.

Lemma fallback_length (days : Z) :
  length (_create_fallback_workout_plan days) = Z.to_nat days.
Proof.
  unfold _create_fallback_workout_plan.
  change (map fallback_day (seqZ 0 days)) with (fallback_day <$> seqZ 0 days).
  by rewrite length_fmap, length_seqZ.
Qed.

Lemma fallback_lookup (days : Z) (i : nat) :
  Z.of_nat i < days ->
  _create_fallback_workout_plan days !! i = Some (fallback_day (Z.of_nat i)).
Proof.
  intros Hi. unfold _create_fallback_workout_plan.
  change (map fallback_day (seqZ 0 days)) with (fallback_day <$> seqZ 0 days).
  rewrite list_lookup_fmap, lookup_seqZ_lt by done. done.
Qed.

(** C1, as the specification words it, fails: on an answer of which one
    element fails construction and another does not, the caller receives
    the list of the elements that validated, not the fallback plan. *)
Lemma partial_list_is_returned :
  ~ (forall (llm : workout_backend) days level data items,
        llm days level = Ok data ->
        iterate data = Ok items ->
        Exists (fun x => raises (build_workout_plan x)) items ->
        create_workout_plan llm days level = _create_fallback_workout_plan days).
Proof.
  intros H.
  specialize (H partial_answer 2 "beginner" _ _ eq_refl eq_refl).
  assert (Hbad : Exists (fun x => raises (build_workout_plan x)) [good_day; bad_day]).
  { apply Exists_cons_tl, Exists_cons_hd. exact I. }
  specialize (H Hbad). vm_compute in H. discriminate H.
Qed.

(** C1, amended: an element that fails construction is dropped on its
    own.  When the answer decodes to a sequence, the caller receives the
    elements that survive, in order, and the fallback plan takes their
    place only when none survives. *)
Theorem failed_elements_are_dropped_individually
        (llm : workout_backend) (days : Z) (level : string)
        (data : json) (items : list json) :
  llm days level = Ok data ->
  iterate data = Ok items ->
  let kept := survivors build_workout_plan items in
  (kept <> [] -> create_workout_plan llm days level = kept)
  /\ (kept = [] -> create_workout_plan llm days level
                   = _create_fallback_workout_plan days).
Proof.
  intros Hllm Hit kept. unfold create_workout_plan.
  rewrite Hllm, Hit, collect_survivors. fold kept.
  destruct kept; split; congruence.
Qed.

Lemma failed_elements_are_dropped_individually_witness :
  let kept := survivors build_workout_plan [good_day; bad_day] in
  (kept <> [] -> create_workout_plan partial_answer 2 "beginner" = kept)
  /\ (kept = [] -> create_workout_plan partial_answer 2 "beginner"
                   = _create_fallback_workout_plan 2).
Proof.
  apply (failed_elements_are_dropped_individually
           partial_answer 2 "beginner" (JList [good_day; bad_day]));
    reflexivity.
Defined.

(** C2: when the backend's text is no JSON, [create_workout_plan] returns
    exactly [days] records, the fallback days labelled Day 1 to
    Day [days], for every [days >= 0]. *)
Theorem fallback_on_malformed_json
        (llm : workout_backend) (days : Z) (level : string) (e : exn) :
  0 <= days ->
  llm days level = Raise e ->
  let plans := create_workout_plan llm days level in
  Z.of_nat (length plans) = days
  /\ forall i : nat,
       Z.of_nat i < days ->
       plans !! i
       = Some (mkWorkoutPlan ("Day " ++ Py.str_of_int (Z.of_nat i + 1))
                             fallback_exercises "45 minutes" "moderate").
Proof.
  intros Hd Hllm plans. subst plans. unfold create_workout_plan.
  rewrite Hllm. split.
  - rewrite fallback_length. lia.
  - intros i Hi. by rewrite fallback_lookup.
Qed.

Lemma fallback_on_malformed_json_witness :
  let plans := create_workout_plan garbled 3 "advanced" in
  Z.of_nat (length plans) = 3
  /\ forall i : nat,
       Z.of_nat i < 3 ->
       plans !! i
       = Some (mkWorkoutPlan ("Day " ++ Py.str_of_int (Z.of_nat i + 1))
                             fallback_exercises "45 minutes" "moderate").
Proof.
  apply (fallback_on_malformed_json garbled 3 "advanced" decode_error);
    [lia | reflexivity].
Defined.

(** C3: when the backend fails (its text is no JSON, or no element
    survives construction), [create_diet_plan] returns the four fixed
    meals Breakfast, Lunch, Dinner, Snack of 500, 700, 600 and 300 kcal,
    whatever [daily_calories] is. *)
Theorem fallback_meals_on_failure
        (float_of_text : string -> res string) (int_of_float : string -> res Z)
        (llm : diet_backend) (daily_calories : Z) :
  generation_failed (build_diet_plan float_of_text int_of_float)
                    (llm daily_calories) ->
  let plans := create_diet_plan float_of_text int_of_float llm daily_calories in
  plans = fallback_meals
  /\ length plans = 4%nat
  /\ map meal_type plans = ["Breakfast"; "Lunch"; "Dinner"; "Snack"]
  /\ map calories plans = [500; 700; 600; 300].
Proof.
  intros Hfail plans.
  assert (Hp : plans = fallback_meals).
  { subst plans. unfold create_diet_plan, generation_failed in *.
    destruct (llm daily_calories) as [data|]; [|done].
    destruct (iterate data) as [items|]; [|done].
    by rewrite (collect_all_raise _ _ Hfail). }
  rewrite Hp. repeat split.
Qed.

Lemma fallback_meals_on_failure_witness :
  generation_failed (build_diet_plan no_float no_trunc) (useless_meals 1800)
  /\ map calories (create_diet_plan no_float no_trunc useless_meals 1800)
     = [500; 700; 600; 300].
Proof.
  assert (H : generation_failed (build_diet_plan no_float no_trunc)
                                (useless_meals 1800)).
  { simpl. repeat constructor. }
  split; [exact H|].
  apply (fallback_meals_on_failure no_float no_trunc useless_meals 1800 H).
Defined.

End PlanGenerator.

(* ===================================================================== *)
(** * Calendar Exporter                                                    *)
(* ===================================================================== *)

Section CalendarExporter.
Import FitnessAgent Datetime CalendarAgent Spec Examples.

(** ** Ordinals and dates *)

Lemma month_day_cases (leap : bool) :
  forallb (month_day_ok leap) (seqZ 0 365) = true.
Proof. destruct leap; vm_compute; reflexivity. Qed.

Lemma month_day_spec (r : Z) (leap : bool) :
  0 <= r < 365 ->
  let '(m, d) := month_day r leap in
  table DAYS_BEFORE_MONTH m + (if (2 <? m) && leap then 1 else 0) + d = r + 1.
Proof.
  intros Hr. pose proof (month_day_cases leap) as H.
  rewrite forallb_forall in H. specialize (H r).
  unfold month_day_ok in H. destruct (month_day r leap) as [m d].
  apply Z.eqb_eq, H, list_elem_of_In, elem_of_seqZ. lia.
Qed.


Lemma days_before_year_decomp (a b c e : Z) :
  0 <= b <= 3 -> 0 <= c <= 24 -> 0 <= e <= 3 ->
  days_before_year (400 * a + 100 * b + 4 * c + e + 1)
  = 146097 * a + 36524 * b + 1461 * c + 365 * e.
Proof.
  intros Hb Hc He. unfold days_before_year.
  replace (400 * a + 100 * b + 4 * c + e + 1 - 1)
    with (400 * a + 100 * b + 4 * c + e) by lia.
  assert (H4 : (400 * a + 100 * b + 4 * c + e) / 4 = 100 * a + 25 * b + c).
  { symmetry. apply (Z.div_unique _ 4 _ e); lia. }
  assert (H100 : (400 * a + 100 * b + 4 * c + e) / 100 = 4 * a + b).
  { symmetry. apply (Z.div_unique _ 100 _ (4 * c + e)); lia. }
  assert (H400 : (400 * a + 100 * b + 4 * c + e) / 400 = a).
  { symmetry. apply (Z.div_unique _ 400 _ (100 * b + 4 * c + e)); lia. }
  rewrite H4, H100, H400. lia.
Qed.

Lemma is_leap_decomp (a b c e : Z) :
  0 <= b <= 3 -> 0 <= c <= 24 -> 0 <= e <= 3 ->
  is_leap (400 * a + 100 * b + 4 * c + e + 1)
  = (e =? 3) && (negb (c =? 24) || (b =? 3)).
Proof.
  intros Hb Hc He. unfold is_leap.
  set (y := 400 * a + 100 * b + 4 * c + e + 1).
  assert (H4 : y mod 4 = (e + 1) mod 4).
  { unfold y. replace (400 * a + 100 * b + 4 * c + e + 1)
      with (e + 1 + (100 * a + 25 * b + c) * 4) by lia. apply Z.mod_add. lia. }
  assert (H100 : y mod 100 = (4 * c + e + 1) mod 100).
  { unfold y. replace (400 * a + 100 * b + 4 * c + e + 1)
      with (4 * c + e + 1 + (4 * a + b) * 100) by lia. apply Z.mod_add. lia. }
  assert (H400 : y mod 400 = (100 * b + 4 * c + e + 1) mod 400).
  { unfold y. replace (400 * a + 100 * b + 4 * c + e + 1)
      with (100 * b + 4 * c + e + 1 + a * 400) by lia. apply Z.mod_add. lia. }
  rewrite H4, H100, H400.
  destruct (Z.eqb_spec e 3) as [->|He3].
  - change ((3 + 1) mod 4 =? 0) with true. simpl andb.
    destruct (Z.eqb_spec c 24) as [->|Hc24].
    + change ((4 * 24 + 3 + 1) mod 100 =? 0) with true. simpl.
      destruct (Z.eqb_spec b 3) as [->|Hb3]; [reflexivity|].
      apply Z.eqb_neq. rewrite Z.mod_small by lia. lia.
    + simpl. replace ((4 * c + 3 + 1) mod 100 =? 0) with false; [reflexivity|].
      symmetry. apply Z.eqb_neq. rewrite Z.mod_small by lia. lia.
  - simpl. replace ((e + 1) mod 4 =? 0) with false; [reflexivity|].
    symmetry. apply Z.eqb_neq. rewrite Z.mod_small by lia. lia.
Qed.

Lemma ord2ymd_ordinal (n : Z) :
  let '(y, m, d) := ord2ymd n in ymd2ord y m d = n.
Proof.
  unfold ord2ymd. cbv zeta.
  set (n0 := n - 1).
  set (n400 := n0 / DI400Y). set (r400 := n0 mod DI400Y).
  set (n100 := r400 / DI100Y). set (r100 := r400 mod DI100Y).
  set (n4 := r100 / DI4Y). set (r4 := r100 mod DI4Y).
  set (n1 := r4 / 365). set (r1 := r4 mod 365).
  assert (H400 : n0 = DI400Y * n400 + r400 /\ 0 <= r400 < DI400Y).
  { unfold n400, r400, DI400Y. split; [apply Z.div_mod; lia| apply Z.mod_pos_bound; lia]. }
  assert (H100 : r400 = DI100Y * n100 + r100 /\ 0 <= r100 < DI100Y).
  { unfold n100, r100, DI100Y. split; [apply Z.div_mod; lia| apply Z.mod_pos_bound; lia]. }
  assert (H4 : r100 = DI4Y * n4 + r4 /\ 0 <= r4 < DI4Y).
  { unfold n4, r4, DI4Y. split; [apply Z.div_mod; lia| apply Z.mod_pos_bound; lia]. }
  assert (H1 : r4 = 365 * n1 + r1 /\ 0 <= r1 < 365).
  { unfold n1, r1. split; [apply Z.div_mod; lia| apply Z.mod_pos_bound; lia]. }
  clearbody n400 r400 n100 r100 n4 r4 n1 r1.
  unfold DI400Y, DI100Y, DI4Y in *.
  assert (Hb : 0 <= n100 <= 4 /\ 0 <= n4 <= 24 /\ 0 <= n1 <= 4) by lia.
  unfold ymd2ord, days_before_month.
  destruct (Z.eqb_spec n1 4) as [Hn1|Hn1]; simpl orb.
  - replace (n400 * 400 + 1 + n100 * 100 + n4 * 4 + n1 - 1)
      with (400 * n400 + 100 * n100 + 4 * n4 + 3 + 1) by lia.
    rewrite days_before_year_decomp, is_leap_decomp by lia.
    replace (n4 =? 24) with false by (symmetry; apply Z.eqb_neq; lia).
    change (table DAYS_BEFORE_MONTH 12) with 334. simpl. lia.
  - destruct (Z.eqb_spec n100 4) as [Hn100|Hn100].
    + replace (n400 * 400 + 1 + n100 * 100 + n4 * 4 + n1 - 1)
        with (400 * n400 + 100 * 3 + 4 * 24 + 3 + 1) by lia.
      rewrite days_before_year_decomp, is_leap_decomp by lia.
      change (table DAYS_BEFORE_MONTH 12) with 334. simpl. lia.
    + pose proof (month_day_spec r1 ((n1 =? 3) && (negb (n4 =? 24) || (n100 =? 3))))
        as Hmd.
      destruct (month_day r1 _) as [m d].
      replace (n400 * 400 + 1 + n100 * 100 + n4 * 4 + n1)
        with (400 * n400 + 100 * n100 + 4 * n4 + n1 + 1) by lia.
      rewrite days_before_year_decomp, is_leap_decomp by lia.
      specialize (Hmd ltac:(lia)). lia.
Qed.


Lemma mapM_res_ok {A B} (f : A -> res B) (l : list A) :
  Forall (fun x => exists y, f x = Ok y) l ->
  exists ys, mapM_res f l = Ok ys /\ length ys = length l.
Proof.
  induction 1 as [|x l [y Hy] _ (ys & Hys & Hlen)]; simpl.
  - by exists [].
  - rewrite Hy. simpl. rewrite Hys. simpl. exists (y :: ys). simpl. auto.
Qed.

Lemma item_of_mem {V} (k : string) (d : list (string * V)) :
  Dict.mem k d = true -> exists v, Dict.item k d = Ok v.
Proof.
  unfold Dict.mem, Dict.item. destruct (Dict.get k d) as [v|]; [|done].
  intros _. by exists v.
Qed.










(** The three-day plan starting 2024-01-01 gives events on 2024-01-01,
    2024-01-02 and 2024-01-03, each of 60 minutes. *)
Lemma three_days_from_new_year :
  (fun r => match r with
            | Ok (events, _) =>
                map (fun e => (year (ev_begin e), month (ev_begin e),
                               dom (ev_begin e), ev_duration e)) events
            | Raise _ => []
            end)
    (create_workout_calendar "calendars" fixed_uuid writable
       (_create_fallback_workout_plan 3) new_year_2024
       default_calendar_name default_duration_minutes)
  = [(2024, 1, 1, 60); (2024, 1, 2, 60); (2024, 1, 3, 60)].
Proof. vm_compute. reflexivity. Qed.

End CalendarExporter.

(* ===================================================================== *)
(** * Persistence Gateway                                                  *)
(* ===================================================================== *)

Section PersistenceGateway.
Import DatabaseManager Examples.

Lemma absorb_rollback_sentinel {A} (c : connection) (sentinel : A)
      (body : res A) (e : exn) :
  exn_class_of e = Psycopg2Error ->
  rollback c = Ok tt ->
  body = Raise e ->
  absorb_rollback c sentinel body = Ok sentinel.
Proof.
  intros He Hr ->. unfold absorb_rollback, catch_only.
  rewrite He. rewrite bool_decide_eq_true_2 by set_solver. by rewrite Hr.
Qed.

Lemma absorb_sentinel {A} (sentinel : A) (body : res A) (e : exn) :
  exn_class_of e = Psycopg2Error ->
  body = Raise e ->
  absorb sentinel body = Ok sentinel.
Proof.
  intros He ->. unfold absorb, catch_only.
  rewrite He. by rewrite bool_decide_eq_true_2 by set_solver.
Qed.

(** C8, as the specification words it, fails.  When the server has dropped
    the connection, the statement raises a [psycopg2] error and so does the
    rollback in the handler: [save_workout_plan] raises.  And an error of
    another class than [psycopg2.Error] is not caught at all:
    [get_or_create_user] raises the driver's [ValueError]. *)
Lemma gateway_raises :
  raises (save_workout_plan (Some lost_connection) 1 "Plan" (JList []))
  /\ raises (get_or_create_user (Some nul_rejecting) nul_name).
Proof. split; exact I. Qed.

(** C8, amended: every gateway operation returns its documented sentinel
    when there is no connection, and when a step of it raises a
    [psycopg2.Error], provided that, in the operations that roll back, the
    rollback returns. *)
Theorem gateway_absorbs_driver_errors
        (c : connection) (e : exn)
        (username : string) (user_id : Z) (profile : gmap string json)
        (name : string) (data : json) :
  exn_class_of e = Psycopg2Error ->
  rollback c = Ok tt ->
  (get_or_create_user None username = Ok (-1, false)
   /\ get_profile None user_id = Ok ∅
   /\ save_profile None user_id profile = Ok false
   /\ save_workout_plan None user_id name data = Ok (-1)
   /\ get_workout_plans None user_id = Ok []
   /\ save_diet_plan None user_id name data = Ok (-1)
   /\ get_diet_plans None user_id = Ok [])
  /\ (get_or_create_user_body c username = Raise e ->
      get_or_create_user (Some c) username = Ok (-1, false))
  /\ (get_profile_body c user_id = Raise e ->
      get_profile (Some c) user_id = Ok ∅)
  /\ (save_profile_body c user_id profile = Raise e ->
      save_profile (Some c) user_id profile = Ok false)
  /\ (insert_plan_body c (InsertWorkoutPlan user_id name data) = Raise e ->
      save_workout_plan (Some c) user_id name data = Ok (-1))
  /\ (select_plans_body c (SelectWorkoutPlans user_id) = Raise e ->
      get_workout_plans (Some c) user_id = Ok [])
  /\ (insert_plan_body c (InsertDietPlan user_id name data) = Raise e ->
      save_diet_plan (Some c) user_id name data = Ok (-1))
  /\ (select_plans_body c (SelectDietPlans user_id) = Raise e ->
      get_diet_plans (Some c) user_id = Ok []).
Proof.
  intros He Hr. split; [by repeat split|].
  repeat split; intros Hbody; simpl;
    first [ by apply (absorb_rollback_sentinel c _ _ e)
          | by apply (absorb_sentinel _ _ e) ].
Qed.

Lemma gateway_absorbs_driver_errors_witness :
  save_workout_plan (Some rejecting) 7 "Plan" (JList []) = Ok (-1)
  /\ get_workout_plans (Some rejecting) 7 = Ok []
  /\ get_or_create_user (Some rejecting) "ann" = Ok (-1, false).
Proof.
  destruct (gateway_absorbs_driver_errors rejecting violation "ann" 7 ∅ "Plan"
              (JList []) eq_refl eq_refl)
    as (_ & Huser & _ & _ & Hsave & Hget & _).
  split; [exact (Hsave eq_refl)|]. split; [exact (Hget eq_refl)|].
  exact (Huser eq_refl).
Defined.

End PersistenceGateway.

(* ===================================================================== *)
(** * Command Interpreter: parameters                                      *)
(* ===================================================================== *)

Section CommandParameters.
Import FitnessAgent Spec Examples.

Lemma item_cases {A} (l : list A) (i : nat) :
  (exists x, Params.item l i = Ok x)
  \/ Params.item l i = Raise (Exn IndexError "list index out of range").
Proof. unfold Params.item. destruct (l !! i); eauto. Qed.

Lemma chat_level_param_returns (user_input : string) :
  exists level, InteractiveChat.level_param user_input = Ok level.
Proof.
  unfold InteractiveChat.level_param, Params.rest_after.
  destruct (Py.contains "level:" (Py.lower user_input)); [|eauto].
  destruct (item_cases (Py.split "level:" (Py.lower user_input)) 1)
    as [[part ->]| ->]; [|eauto].
  simpl. destruct (item_cases (Py.words (Py.strip part)) 0) as [[w ->]| ->]; eauto.
Qed.

Lemma app_level_param_returns (message : string) :
  exists level, App.level_param message = Ok level /\ level ∈ App.levels.
Proof.
  assert (Hdefault : "intermediate" ∈ App.levels) by (unfold App.levels; set_solver).
  unfold App.level_param, Params.rest_after.
  destruct (Py.contains "level:" (Py.lower message)); [|eauto].
  destruct (item_cases (Py.split "level:" (Py.lower message)) 1)
    as [[part ->]| ->]; [|eauto].
  simpl. destruct (item_cases (Py.words (Py.strip part)) 0) as [[w ->]| ->]; [|eauto].
  simpl. case_bool_decide; eauto.
Qed.

Lemma days_default (message : string) :
  Py.contains "days:" message = true ->
  (forall tok, Params.word_after "days:" message = Ok tok -> Py.int tok = None) ->
  catch_only [ValueError; IndexError]
    (days_part ← Params.word_after "days:" message; Params.int days_part)
    (fun _ => Ok 4) = Ok 4.
Proof.
  intros _ Htok. revert Htok. unfold Params.word_after.
  destruct (item_cases (Py.split "days:" message) 1) as [[part ->]| ->]; [|done].
  simpl. destruct (item_cases (Py.words part) 0) as [[w ->]| ->]; [|done].
  simpl. intros Htok. unfold Params.int. by rewrite (Htok w eq_refl).
Qed.

Lemma chat_plan_text_ok (w : WorkoutPlan) :
  workout_ok w = true -> exists text, InteractiveChat.plan_text w = Ok text.
Proof.
  unfold workout_ok, InteractiveChat.plan_text. intros Hw.
  destruct (mapM_res_ok InteractiveChat.exercise_line (exercises w))
    as (lines & -> & _); [|simpl; eauto].
  apply Forall_forall. intros e He.
  rewrite forallb_forall in Hw. specialize (Hw e).
  rewrite <- list_elem_of_In in Hw. specialize (Hw He).
  unfold exercise_ok in Hw. apply andb_prop in Hw as [[Hn Hs]%andb_prop Hr].
  unfold InteractiveChat.exercise_line.
  destruct (item_of_mem _ _ Hn) as [n ->], (item_of_mem _ _ Hs) as [st ->],
           (item_of_mem _ _ Hr) as [r ->].
  simpl. eauto.
Qed.

(** C5: [update profile age: 31, goals: lose fat] merges exactly age "31"
    and goals "lose fat" into the stored profile, in both interpreters, and
    every other key of the profile keeps its value. *)
Theorem update_profile_merges_named_keys
        (float_of_text : string -> res string) (llm : workout_backend)
        (other : App.command -> string -> App.session -> string * App.session)
        (s : App.session) (c : InteractiveChat.chat) :
  let message := "update profile age: 31, goals: lose fat" in
  let merged (p : gmap string json) : gmap string json :=
    <["goals" := JStr "lose fat"]> (<["age" := JStr "31"]> p) in
  Params.parse_updates message = [("age", "31"); ("goals", "lose fat")]
  /\ App.user_profile
       (snd (App.process_chat_message float_of_text llm other message s))
     = merged (App.user_profile s)
  /\ InteractiveChat.user_profile
       (snd (InteractiveChat.handle_profile_update message c))
     = merged (InteractiveChat.user_profile c)
  /\ forall (p : gmap string json) (k : string),
       k <> "age" -> k <> "goals" -> merged p !! k = p !! k.
Proof.
  intros message merged.
  assert (Hparse : Params.parse_updates message
                   = [("age", "31"); ("goals", "lose fat")])
    by (vm_compute; reflexivity).
  split; [exact Hparse|]. split; [|split].
  - change (App.process_chat_message float_of_text llm other message s)
      with (App.update_profile_command message s).
    unfold App.update_profile_command. rewrite Hparse.
    unfold App.update_profile.
    destruct (DatabaseManager.save_profile _ _ _) as [[]|]; reflexivity.
  - unfold InteractiveChat.handle_profile_update. rewrite Hparse.
    destruct (if 0 <? _ then _ else _); reflexivity.
  - intros p k Ha Hg. unfold merged.
    rewrite lookup_insert_ne by done. by rewrite lookup_insert_ne.
Qed.

(** C6 fails in [interactive_chat.py]: the word after [level:] is passed
    to the Plan Generator as it stands.  On
    [create workout plan level: expert] the generator is called with the
    level "expert", which is none of beginner, intermediate, advanced. *)
Lemma chat_passes_unvalidated_level :
  InteractiveChat.workout_params "create workout plan level: expert"
  = Ok (4, "expert")
  /\ ("expert" ∉ App.levels)
  /\ InteractiveChat.current_workout_plan
       (snd (InteractiveChat.handle_workout_creation echo_backend
               "create workout plan level: expert" fresh_chat))
     = Some [mkWorkoutPlan "expert" [] "4" "moderate"].
Proof.
  split; [vm_compute; reflexivity|]. split; [|vm_compute; reflexivity].
  apply (proj1 (bool_decide_eq_false _)). reflexivity.
Qed.

(** The sibling rule of [app.py] does validate: the level it passes is one
    of the three. *)
Lemma app_passes_validated_level (message : string) :
  exists days level,
    App.workout_params message = Ok (days, level) /\ level ∈ App.levels.
Proof.
  unfold App.workout_params.
  assert (Hd : exists d, App.days_param message = Ok d).
  { unfold App.days_param, Params.word_after, Params.int.
    destruct (Py.contains "days:" message); [|eauto].
    destruct (item_cases (Py.split "days:" message) 1) as [[part ->]| ->]; [|eauto].
    simpl. destruct (item_cases (Py.words part) 0) as [[w ->]| ->]; [|eauto].
    simpl. destruct (Py.int w); eauto. }
  destruct Hd as [d ->]. destruct (app_level_param_returns message) as (l & -> & Hl).
  simpl. eauto.
Qed.

(** ** What the handler of [interactive_chat.py] does after the fallback *)

Lemma chat_exercise_line_cases (e : list (string * string)) :
  (exercise_ok e = true /\ exists line, InteractiveChat.exercise_line e = Ok line)
  \/ (exercise_ok e = false
      /\ exists text, InteractiveChat.exercise_line e = Raise (Exn KeyError text)).
Proof.
  unfold exercise_ok, InteractiveChat.exercise_line, Dict.mem, Dict.item.
  destruct (Dict.get "name" e); [|right; simpl; eauto].
  destruct (Dict.get "sets" e); [|right; simpl; eauto].
  destruct (Dict.get "reps" e); [left|right]; simpl; eauto.
Qed.

Lemma chat_plan_text_cases (w : WorkoutPlan) :
  (workout_ok w = true /\ exists text, InteractiveChat.plan_text w = Ok text)
  \/ (workout_ok w = false
      /\ exists text, InteractiveChat.plan_text w = Raise (Exn KeyError text)).
Proof.
  unfold workout_ok, InteractiveChat.plan_text.
  induction (exercises w) as [|e es IH]; [left; simpl; eauto|].
  cbn [forallb mapM_res].
  destruct (chat_exercise_line_cases e) as [[-> [line ->]]|[-> [text ->]]];
    [|right; simpl; eauto].
  cbn [andb]. destruct IH as [[-> [text Ht]]|[-> [text Ht]]]; [left|right].
  - split; [done|]. simpl.
    destruct (mapM_res InteractiveChat.exercise_line es); [simpl; eauto|done].
  - split; [done|]. simpl.
    destruct (mapM_res InteractiveChat.exercise_line es); [done|].
    simpl in *. eauto.
Qed.

Lemma chat_plan_texts_cases (plan : list WorkoutPlan) :
  (forallb workout_ok plan = true
   /\ exists texts, mapM_res InteractiveChat.plan_text plan = Ok texts)
  \/ (forallb workout_ok plan = false
      /\ exists text,
           mapM_res InteractiveChat.plan_text plan = Raise (Exn KeyError text)).
Proof.
  induction plan as [|w plan IH]; [left; simpl; eauto|].
  cbn [forallb mapM_res].
  destruct (chat_plan_text_cases w) as [[-> [t ->]]|[-> [text ->]]];
    [|right; simpl; eauto].
  cbn [andb]. destruct IH as [[-> [texts ->]]|[-> [text ->]]]; [left|right];
    simpl; eauto.
Qed.

(** C9 fails in [interactive_chat.py].  On
    [create workout plan days: abc] its handler does fall back to 4 days
    and stores the plan it gets, but it then writes the plan out with no
    guard: when the answer of the backend has an exercise without a name,
    the handler raises [KeyError] and the command does not complete.  The
    rule of [app.py] answers the same message, with the same backend, with
    a reply: its [except Exception] is the guard the handler lacks. *)
Lemma chat_creation_raises_after_the_fallback :
  InteractiveChat.route "create workout plan days: abc"
  = InteractiveChat.HandleWorkoutCreation
  /\ InteractiveChat.workout_params "create workout plan days: abc"
     = Ok (4, "intermediate")
  /\ create_workout_plan nameless_answer 4 "intermediate" = [nameless_day]
  /\ InteractiveChat.handle_workout_creation nameless_answer
       "create workout plan days: abc" fresh_chat
     = (Raise (Exn KeyError "'name'"),
        InteractiveChat.set_plan fresh_chat [nameless_day])
  /\ App.create_workout_command nameless_answer
       "create workout plan days: abc" fresh_session
     = (App.apology, App.set_workout fresh_session [nameless_day]).
Proof. repeat split; vm_compute; reflexivity. Qed.

(** X24: what holds of an unparsable [days:] in both interpreters.  When
    the word after [days:] is no integer, both read 4 days.  The handler
    of [interactive_chat.py] calls the Plan Generator with 4 days and
    stores the plan it gets as the current plan; it returns its reply, and
    records it in the history, exactly when every exercise of that plan
    carries name, sets and reps, and it raises [KeyError] otherwise. *)
Theorem unparsable_days_fall_back_to_four (message : string) :
  Py.contains "days:" message = true ->
  (forall tok, Params.word_after "days:" message = Ok tok -> Py.int tok = None) ->
  InteractiveChat.days_param message = Ok 4
  /\ App.days_param message = Ok 4
  /\ (exists level,
        App.workout_params message = Ok (4, level) /\ level ∈ App.levels)
  /\ (exists level,
        InteractiveChat.workout_params message = Ok (4, level)
        /\ forall (llm : workout_backend) (c : InteractiveChat.chat),
             let plan := create_workout_plan llm 4 level in
             InteractiveChat.current_workout_plan
               (snd (InteractiveChat.handle_workout_creation llm message c))
             = Some plan
             /\ (forallb workout_ok plan = true ->
                 exists reply,
                   InteractiveChat.handle_workout_creation llm message c
                   = (Ok reply,
                      InteractiveChat.say (InteractiveChat.set_plan c plan) reply))
             /\ (forallb workout_ok plan = false ->
                 exists text,
                   InteractiveChat.handle_workout_creation llm message c
                   = (Raise (Exn KeyError text),
                      InteractiveChat.set_plan c plan))).
Proof.
  intros Hc Htok.
  assert (Hchat : InteractiveChat.days_param message = Ok 4).
  { unfold InteractiveChat.days_param. rewrite Hc. by apply days_default. }
  assert (Happ : App.days_param message = Ok 4).
  { unfold App.days_param. rewrite Hc. by apply days_default. }
  split; [done|]. split; [done|]. split.
  - destruct (app_level_param_returns message) as (l & Hl & Hin).
    exists l. split; [|done]. unfold App.workout_params. by rewrite Happ, Hl.
  - destruct (chat_level_param_returns message) as (l & Hl).
    assert (Hp : InteractiveChat.workout_params message = Ok (4, l)).
    { unfold InteractiveChat.workout_params. by rewrite Hchat, Hl. }
    exists l. split; [done|]. intros llm c plan. subst plan.
    unfold InteractiveChat.handle_workout_creation. rewrite Hp.
    destruct (chat_plan_texts_cases (create_workout_plan llm 4 l))
      as [[Hok [texts ->]]|[Hok [text ->]]]; rewrite Hok.
    + split; [done|]. split; [eauto|done].
    + split; [done|]. split; [done|eauto].
Qed.

Lemma unparsable_days_fall_back_to_four_witness :
  InteractiveChat.days_param "create workout plan days: abc" = Ok 4
  /\ App.days_param "create workout plan days: abc" = Ok 4.
Proof.
  assert (Htok : forall tok,
             Params.word_after "days:" "create workout plan days: abc" = Ok tok ->
             Py.int tok = None).
  { intros tok Htok. vm_compute in Htok. injection Htok as <-. reflexivity. }
  destruct (unparsable_days_fall_back_to_four "create workout plan days: abc"
              eq_refl Htok) as (H1 & H2 & _).
  split; [exact H1 | exact H2].
Defined.

End CommandParameters.

(* ===================================================================== *)
(** * Command Interpreter: loading a saved plan                            *)
(* ===================================================================== *)

Section LoadCommands.
Import FitnessAgent DatabaseManager Spec Examples.

(** ** Dumped plans read back *)

Lemma mapM_res_roundtrip {A B} (f : A -> res B) (g : B -> A) (l : list B) :
  (forall y, f (g y) = Ok y) -> mapM_res f (map g l) = Ok l.
Proof.
  intros Hfg. induction l as [|y l IH]; simpl; [done|].
  rewrite Hfg. simpl. rewrite IH. done.
Qed.

Lemma exercise_roundtrip (e : list (string * string)) :
  as_str_dict (dump_exercise e) = Ok e.
Proof.
  unfold as_str_dict, dump_exercise.
  induction e as [|[k v] e IH]; simpl; [done|]. by rewrite IH.
Qed.

Lemma workout_roundtrip (p : WorkoutPlan) :
  WorkoutPlan_new (WorkoutPlan_model_dump p) = Ok p.
Proof.
  destruct p as [dy ex du it].
  unfold WorkoutPlan_new, WorkoutPlan_model_dump, field_str, field_exercises.
  simpl. rewrite (mapM_res_roundtrip as_str_dict dump_exercise ex exercise_roundtrip).
  done.
Qed.

Lemma diet_roundtrip (float_of_text : string -> res string) (p : DietPlan) :
  DietPlan_new float_of_text (DietPlan_model_dump p) = Ok p.
Proof.
  destruct p as [mt fs c m].
  unfold DietPlan_new, DietPlan_model_dump, field_str, field_foods,
    field_calories, field_macros.
  simpl. rewrite (mapM_res_roundtrip as_str JStr fs) by done. simpl.
  assert (Hm : mapM_res (as_macro float_of_text)
                 (map (fun kv => (kv.1, JFloat kv.2)) m) = Ok m).
  { induction m as [|[k v] m IH]; simpl; [done|]. by rewrite IH. }
  by rewrite Hm.
Qed.

(** ** Rows read back from the store *)

Lemma dict_get_none {V} (k : string) (d : list (string * V)) :
  Dict.get k d = None <-> k ∉ d.*1.
Proof.
  induction d as [|[k' v'] d IH]; simpl.
  - split; [intros _; apply not_elem_of_nil|done].
  - rewrite not_elem_of_cons. destruct (String.eqb k k') eqn:Hk.
    + apply String.eqb_eq in Hk. split; [done|]. by intros [? _].
    + apply String.eqb_neq in Hk. rewrite IH. tauto.
Qed.

Lemma dict_get_some {V} (k : string) (v : V) (d : list (string * V)) :
  Dict.get k d = Some v -> (k, v) ∈ d.
Proof.
  induction d as [|[k' v'] d IH]; simpl; [done|].
  destruct (String.eqb k k') eqn:Hk.
  - apply String.eqb_eq in Hk as ->. intros [= ->]. apply list_elem_of_here.
  - intros H. apply list_elem_of_further. by apply IH.
Qed.








(** ** Python list indexing *)







(** ** Reading the number of a load command *)








(** ** [load_workout_plan] and [load_diet_plan] *)







(** ** The load rules of [process_chat_message] *)














(** What follows a second colon is not read: [load workout plan: 2:x]
    loads the second saved plan. *)
Lemma text_after_second_colon_is_ignored :
  App.plan_index "load workout plan: 2:x" = Ok 1
  /\ App.current_workout_plan
       (snd (App.process_chat_message no_float garbled other_rules
               "load workout plan: 2:x" returning_session))
     = Some [pull_as_stored].
Proof. split; vm_compute; reflexivity. Qed.




End LoadCommands.

(* ===================================================================== *)
(** * More facts about the string built-ins                                *)
(* ===================================================================== *)

Section StringPieces.
Import Spec.
Local Arguments Ascii.eqb : simpl never.
Local Arguments Py.isspace : simpl never.

Lemma all_chars_rev_app (P : ascii -> bool) (a b : string) :
  all_chars P (String.rev_app a b) = all_chars P a && all_chars P b.
Proof.
  revert b. induction a as [|c a IH]; intros b; simpl; [done|].
  rewrite IH. simpl. destruct (P c), (all_chars P a); simpl; try done.
Qed.

Lemma all_chars_rev (P : ascii -> bool) (a : string) :
  all_chars P (String.rev a) = all_chars P a.
Proof. unfold String.rev. rewrite all_chars_rev_app. simpl. by rewrite andb_true_r. Qed.

(** The pieces [split] cuts a text into are made of its characters. *)
Lemma split_go_all_chars (P : ascii -> bool) (sep : string) (s : string) :
  forall (skip : nat) (cur : string),
    all_chars P cur = true -> all_chars P s = true ->
    Forall (fun piece => all_chars P piece = true) (Py.split_go sep skip cur s).
Proof.
  induction s as [|c s IH]; intros skip cur Hcur Hs.
  - destruct skip; simpl; repeat constructor; by rewrite all_chars_rev.
  - simpl in Hs. apply andb_prop in Hs as [Hc Hs].
    destruct skip as [|k]; simpl.
    + destruct (Py.startswith (String c s) sep).
      * constructor; [by rewrite all_chars_rev|]. by apply IH.
      * apply IH; [|done]. simpl. by rewrite Hc, Hcur.
    + by apply IH.
Qed.

Lemma split_all_chars (P : ascii -> bool) (sep s : string) :
  all_chars P s = true ->
  Forall (fun piece => all_chars P piece = true) (Py.split sep s).
Proof. intros Hs. by apply split_go_all_chars. Qed.

Lemma lstrip_all_chars (P : ascii -> bool) (s : string) :
  all_chars P s = true -> all_chars P (Py.lstrip s) = true.
Proof.
  induction s as [|c s IH]; simpl; [done|].
  intros [Hc Hs]%andb_prop. destruct (Py.isspace c); [by apply IH|].
  simpl. by rewrite Hc, Hs.
Qed.

Lemma rstrip_all_chars (P : ascii -> bool) (s : string) :
  all_chars P s = true -> all_chars P (Py.rstrip s) = true.
Proof.
  induction s as [|c s IH]; simpl; [done|].
  intros [Hc Hs]%andb_prop. specialize (IH Hs).
  destruct (Py.rstrip s) as [|d r].
  - destruct (Py.isspace c); simpl; [done|]. by rewrite Hc.
  - simpl in *. by rewrite Hc, IH.
Qed.

Lemma strip_all_chars (P : ascii -> bool) (s : string) :
  all_chars P s = true -> all_chars P (Py.strip s) = true.
Proof. intros Hs. unfold Py.strip. by apply rstrip_all_chars, lstrip_all_chars. Qed.

(** Deleting the occurrences of a text keeps the other characters. *)
Lemma replace_go_deletes (P : ascii -> bool) (old : string) (s : string) :
  forall skip : nat,
    all_chars P s = true -> all_chars P (Py.replace_go old "" skip s) = true.
Proof.
  induction s as [|c s IH]; intros skip Hs.
  - by destruct skip.
  - simpl in Hs. apply andb_prop in Hs as [Hc Hs].
    destruct skip as [|k]; simpl; [|by apply IH].
    destruct (Py.startswith (String c s) old).
    + rewrite sapp_nil_l. by apply IH.
    + simpl. rewrite Hc. by apply IH.
Qed.

Lemma contains_colon_false (s : string) :
  Py.contains ":" s = false -> all_chars not_colon s = true.
Proof.
  induction s as [|c s IH]; [done|].
  change (Py.contains ":" (String c s))
    with (if (if Ascii.eqb ":" c then true else false) then true
          else Py.contains ":" s).
  simpl. unfold not_colon. rewrite (Ascii.eqb_sym c ":").
  destruct (Ascii.eqb ":" c); [done|]. simpl. exact IH.
Qed.

Lemma no_colon_contains (s : string) :
  all_chars not_colon s = true -> Py.contains ":" s = false.
Proof.
  induction s as [|c s IH]; [done|].
  change (Py.contains ":" (String c s))
    with (if (if Ascii.eqb ":" c then true else false) then true
          else Py.contains ":" s).
  simpl. unfold not_colon. rewrite (Ascii.eqb_sym c ":").
  destruct (Ascii.eqb ":" c); [done|]. simpl. exact IH.
Qed.

Lemma lower_is_lower (s : string) : all_chars lower_fixed (Py.lower s) = true.
Proof.
  induction s as [|c s IH]; simpl; [done|]. rewrite IH, andb_true_r.
  unfold lower_fixed.
  destruct c as [[] [] [] [] [] [] [] []]; vm_compute; reflexivity.
Qed.

Lemma lower_fixed_text (s : string) :
  all_chars lower_fixed s = true -> Py.lower s = s.
Proof.
  induction s as [|c s IH]; simpl; [done|].
  intros [Hc Hs]%andb_prop. rewrite (IH Hs). f_equal.
  unfold lower_fixed in Hc. by apply Ascii.eqb_eq in Hc.
Qed.

(** Replacing the blanks leaves none. *)
Lemma replace_blank_no_blank (s : string) :
  all_chars not_blank (Py.replace " " "_" s) = true.
Proof.
  unfold Py.replace. induction s as [|c s IH]; [done|].
  change (Py.replace_go " " "_" 0 (String c s))
    with (if (if Ascii.eqb " " c then true else false)
          then "_" ++ Py.replace_go " " "_" 0 s
          else String c (Py.replace_go " " "_" 0 s)).
  destruct (Ascii.eqb " " c) eqn:Hc.
  - rewrite sapp_cons, sapp_nil_l. simpl. exact IH.
  - simpl. rewrite IH, andb_true_r. unfold not_blank.
    by rewrite Ascii.eqb_sym, Hc.
Qed.

Lemma startswith_app (s p : string) :
  Py.startswith s p = true -> exists r, s = p ++ r.
Proof.
  revert s. induction p as [|a p IH]; intros s; simpl.
  - intros _. by exists s.
  - destruct s as [|b s]; [done|].
    destruct (Ascii.eqb a b) eqn:Hab; [|done].
    apply Ascii.eqb_eq in Hab as ->. intros [r ->]%IH. by exists r.
Qed.

End StringPieces.

(* ===================================================================== *)
(** * Plan Generator: what a call returns                                  *)
(* ===================================================================== *)

Section PlanGeneratorResults.
Import FitnessAgent Spec Examples.

Lemma dict_get_set_eq {V} (k : string) (v : V) (d : list (string * V)) :
  Dict.get k (Dict.set k v d) = Some v.
Proof.
  induction d as [|[k' v'] d IH]; simpl.
  - by rewrite String.eqb_refl.
  - destruct (String.eqb k k') eqn:Hk; simpl; rewrite Hk; [done|exact IH].
Qed.

Lemma dict_get_set_ne {V} (k k' : string) (v : V) (d : list (string * V)) :
  k <> k' -> Dict.get k (Dict.set k' v d) = Dict.get k d.
Proof.
  intros Hne. induction d as [|[k0 v0] d IH]; simpl.
  - by rewrite (proj2 (String.eqb_neq k k')).
  - destruct (String.eqb k' k0) eqn:Hk; simpl.
    + apply String.eqb_eq in Hk as <-. by rewrite (proj2 (String.eqb_neq k k')).
    + by rewrite IH.
Qed.

Lemma stringified_exercises (es : list (list (string * json))) :
  mapM_res as_str_dict (map stringify_exercise (map JDict es))
  = Ok (map (map (fun kv => (fst kv, Repr.str (snd kv)))) es).
Proof.
  induction es as [|e es IH]; simpl; [done|]. rewrite IH.
  assert (He : mapM_res as_str_item
                 (map (fun kv => (fst kv, JStr (Repr.str (snd kv)))) e)
               = Ok (map (fun kv => (fst kv, Repr.str (snd kv))) e)).
  { clear. induction e as [|[k v] e IH]; simpl; [done|]. by rewrite IH. }
  by rewrite He.
Qed.

Lemma collect_all_ok {A B} (f : A -> res B) (g : B -> A) (l : list B) :
  (forall y, f (g y) = Ok y) -> collect f (map g l) = l.
Proof.
  intros Hfg. induction l as [|y l IH]; simpl; [done|]. by rewrite Hfg, IH.
Qed.

Lemma build_dumped_workout (p : WorkoutPlan) :
  build_workout_plan (WorkoutPlan_model_dump p) = Ok p.
Proof.
  rewrite <- (workout_roundtrip p).
  destruct p as [dy ex du it]. unfold build_workout_plan, WorkoutPlan_model_dump.
  simpl. do 3 f_equal.
  assert (H : map stringify_exercise (map dump_exercise ex) = map dump_exercise ex).
  { clear. induction ex as [|e ex IH]; simpl; [done|]. rewrite IH. f_equal.
    unfold dump_exercise. simpl. f_equal.
    induction e as [|[k v] e IHe]; simpl; [done|]. by rewrite IHe. }
  by rewrite H.
Qed.

Lemma coerce_dumped_macros (float_of_text : string -> res string)
      (m : list (string * string)) :
  mapM_res (coerce_macro float_of_text) (map (fun kv => (fst kv, JFloat (snd kv))) m)
  = Ok (map (fun kv => (fst kv, JFloat (snd kv))) m).
Proof. induction m as [|[k v] m IH]; simpl; [done|]. by rewrite IH. Qed.

Lemma build_dumped_meal (float_of_text : string -> res string)
      (int_of_float : string -> res Z) (p : DietPlan) :
  build_diet_plan float_of_text int_of_float (DietPlan_model_dump p) = Ok p.
Proof.
  rewrite <- (diet_roundtrip float_of_text p).
  destruct p as [mt fs c m].
  unfold build_diet_plan, DietPlan_model_dump, coerce_calories, coerce_macros.
  simpl. rewrite coerce_dumped_macros. reflexivity.
Qed.

(** X1: for a day count of 1 or more, [create_workout_plan] never returns
    an empty plan: it returns the elements of the answer that survive
    construction when there are some, and otherwise the [days] fallback
    days. *)
Theorem workout_plan_is_never_empty
        (llm : workout_backend) (days : Z) (level : string) :
  1 <= days ->
  create_workout_plan llm days level <> []
  /\ (create_workout_plan llm days level = _create_fallback_workout_plan days
      \/ exists data items,
           llm days level = Ok data /\ iterate data = Ok items
           /\ create_workout_plan llm days level
              = survivors build_workout_plan items).
Proof.
  intros Hd.
  assert (Hfb : _create_fallback_workout_plan days <> []).
  { intros H. apply (f_equal length) in H. rewrite fallback_length in H.
    simpl in H. lia. }
  unfold create_workout_plan.
  destruct (llm days level) as [data|] eqn:Hllm; [|by split; [|left]].
  destruct (iterate data) as [items|] eqn:Hit; [|by split; [|left]].
  rewrite collect_survivors.
  destruct (survivors build_workout_plan items) as [|p ps] eqn:Hs;
    [by split; [|left]|].
  split; [done|]. right. by exists data, items.
Qed.

Lemma workout_plan_is_never_empty_witness :
  create_workout_plan garbled 1 "beginner" <> []
  /\ create_workout_plan partial_answer 5 "beginner" <> [].
Proof.
  split.
  - apply (workout_plan_is_never_empty garbled 1 "beginner"). lia.
  - apply (workout_plan_is_never_empty partial_answer 5 "beginner"). lia.
Defined.

(** X2: [create_diet_plan] never returns an empty plan, whatever the
    backend answers and whatever the calorie target is: either the meals
    that survive construction, or the four fallback meals. *)
Theorem diet_plan_is_never_empty
        (float_of_text : string -> res string) (int_of_float : string -> res Z)
        (llm : diet_backend) (daily_calories : Z) :
  let plans := create_diet_plan float_of_text int_of_float llm daily_calories in
  plans <> []
  /\ (plans = fallback_meals
      \/ exists data items,
           llm daily_calories = Ok data /\ iterate data = Ok items
           /\ plans = survivors (build_diet_plan float_of_text int_of_float) items).
Proof.
  intros plans. subst plans. unfold create_diet_plan.
  destruct (llm daily_calories) as [data|] eqn:Hllm; [|by split; [|left]].
  destruct (iterate data) as [items|] eqn:Hit; [|by split; [|left]].
  rewrite collect_survivors.
  destruct (survivors _ items) as [|p ps] eqn:Hs; [by split; [|left]|].
  split; [done|]. right. by exists data, items.
Qed.

(** X3: the coercion of [create_workout_plan] accepts exercise attributes
    of any JSON type.  An element with a string day, duration and intensity
    and a list of exercise objects is constructed, every attribute of every
    exercise becoming its [str]; keys that are no field are dropped. *)
Theorem exercise_attributes_become_text
        (d : list (string * json)) (dy du it : string)
        (es : list (list (string * json))) :
  Dict.get "day" d = Some (JStr dy) ->
  Dict.get "duration" d = Some (JStr du) ->
  Dict.get "intensity" d = Some (JStr it) ->
  Dict.get "exercises" d = Some (JList (map JDict es)) ->
  build_workout_plan (JDict d)
  = Ok (mkWorkoutPlan dy (map (map (fun kv => (fst kv, Repr.str (snd kv)))) es)
                      du it).
Proof.
  intros Hdy Hdu Hit Hex. unfold build_workout_plan. rewrite Hex.
  unfold WorkoutPlan_new, field_str, field_exercises.
  rewrite (dict_get_set_ne "day" "exercises") by discriminate.
  rewrite (dict_get_set_ne "duration" "exercises") by discriminate.
  rewrite (dict_get_set_ne "intensity" "exercises") by discriminate.
  rewrite dict_get_set_eq, Hdy, Hdu, Hit.
  simpl. by rewrite stringified_exercises.
Qed.

Lemma exercise_attributes_become_text_witness :
  build_workout_plan (JDict loose_day)
  = Ok (mkWorkoutPlan "Monday"
          [[("name", "Squats"); ("sets", "3"); ("reps", "[10, 8]");
            ("warmup", "True"); ("rest_period", "None")]]
          "30 minutes" "low").
Proof.
  apply (exercise_attributes_become_text loose_day "Monday" "30 minutes" "low"
           [loose_exercise]); reflexivity.
Defined.

(** X4: a well-formed answer passes through [create_workout_plan]
    unchanged: when the backend answers with the dump of a non-empty list of
    plans, exactly these plans are returned, in order, whatever day count
    was asked for. *)
Theorem well_formed_workout_answer_is_returned
        (llm : workout_backend) (days : Z) (level : string)
        (plans : list WorkoutPlan) :
  plans <> [] ->
  llm days level = Ok (JList (map WorkoutPlan_model_dump plans)) ->
  create_workout_plan llm days level = plans.
Proof.
  intros Hne Hllm. unfold create_workout_plan. rewrite Hllm. simpl.
  rewrite (collect_all_ok _ _ plans build_dumped_workout). by destruct plans.
Qed.

Lemma well_formed_workout_answer_is_returned_witness :
  create_workout_plan two_days 7 "advanced" = [push_day; pull_day].
Proof.
  apply (well_formed_workout_answer_is_returned two_days 7 "advanced"
           [push_day; pull_day]); [discriminate|reflexivity].
Defined.

(** X5: a well-formed answer passes through [create_diet_plan] unchanged:
    meals with integer calories and float macros are neither converted nor
    dropped, whatever Python's float conversions do on other texts. *)
Theorem well_formed_diet_answer_is_returned
        (float_of_text : string -> res string) (int_of_float : string -> res Z)
        (llm : diet_backend) (daily_calories : Z) (meals : list DietPlan) :
  meals <> [] ->
  llm daily_calories = Ok (JList (map DietPlan_model_dump meals)) ->
  create_diet_plan float_of_text int_of_float llm daily_calories = meals.
Proof.
  intros Hne Hllm. unfold create_diet_plan. rewrite Hllm. simpl.
  rewrite (collect_all_ok _ _ meals
             (build_dumped_meal float_of_text int_of_float)).
  by destruct meals.
Qed.

Lemma well_formed_diet_answer_is_returned_witness :
  create_diet_plan no_float no_trunc four_meals 2000 = fallback_meals.
Proof.
  apply (well_formed_diet_answer_is_returned no_float no_trunc four_meals 2000
           fallback_meals); [discriminate|reflexivity].
Defined.

(** X6: [refine_workout_context] returns the plan it was given, unchanged,
    whenever the backend fails (its text is no JSON, is not iterable, or no
    element survives construction); and it never turns a non-empty plan
    into an empty one. *)
Theorem refinement_falls_back_to_the_original
        (llm : refine_backend) (feedback : string) (current_plan : list WorkoutPlan) :
  (generation_failed build_workout_plan (llm feedback current_plan) ->
   refine_workout_context llm feedback current_plan = current_plan)
  /\ (current_plan <> [] ->
      refine_workout_context llm feedback current_plan <> []).
Proof.
  unfold refine_workout_context, generation_failed.
  destruct (llm feedback current_plan) as [data|]; [|done].
  destruct (iterate data) as [items|]; [|done]. split.
  - intros Hfail. by rewrite (collect_all_raise _ _ Hfail).
  - intros Hne. by destruct (collect build_workout_plan items).
Qed.

Lemma refinement_falls_back_to_the_original_witness :
  refine_workout_context garbled_refinement "more legs" [push_day] = [push_day]
  /\ refine_workout_context garbled_refinement "more legs" [push_day] <> [].
Proof.
  destruct (refinement_falls_back_to_the_original garbled_refinement "more legs"
              [push_day]) as [Hsame Hne].
  split; [exact (Hsame I) | apply Hne; discriminate].
Defined.

End PlanGeneratorResults.

(* ===================================================================== *)
(** * Calendar Exporter: the events and the file                           *)
(* ===================================================================== *)

Section CalendarEvents.
Import FitnessAgent Datetime CalendarAgent Spec Examples.

Lemma mapM_res_raises {A B} (f : A -> res B) (l : list A) :
  Exists (fun x => raises (f x)) l -> raises (mapM_res f l).
Proof.
  induction 1 as [x l Hx|x l _ IH]; simpl.
  - by destruct (f x).
  - destruct (f x); [|done]. simpl. by destruct (mapM_res f l).
Qed.

Lemma item_of_no_mem {V} (k : string) (d : list (string * V)) :
  Dict.mem k d = false -> raises (Dict.item k d).
Proof. unfold Dict.mem, Dict.item. by destruct (Dict.get k d). Qed.

Lemma exercise_line_raises (e : list (string * string)) :
  exercise_ok e = false -> raises (exercise_line e).
Proof.
  unfold exercise_ok, exercise_line. intros H.
  destruct (Dict.mem "name" e) eqn:Hn.
  - destruct (item_of_mem _ _ Hn) as [n ->]. simpl.
    destruct (Dict.mem "sets" e) eqn:Hs.
    + destruct (item_of_mem _ _ Hs) as [st ->]. simpl.
      simpl in H. pose proof (item_of_no_mem _ _ H) as Hr.
      by destruct (Dict.item "reps" e).
    + pose proof (item_of_no_mem _ _ Hs) as Hr. by destruct (Dict.item "sets" e).
  - pose proof (item_of_no_mem _ _ Hn) as Hr. by destruct (Dict.item "name" e).
Qed.

Lemma describe_raises (w : WorkoutPlan) :
  workout_ok w = false -> raises (describe w).
Proof.
  unfold workout_ok, describe. intros H.
  assert (Hex : Exists (fun e => raises (exercise_line e)) (exercises w)).
  { induction (exercises w) as [|e es IH]; [done|]. simpl in H.
    destruct (exercise_ok e) eqn:He.
    - apply Exists_cons_tl, IH. exact H.
    - apply Exists_cons_hd. by apply exercise_line_raises. }
  pose proof (mapM_res_raises _ _ Hex) as Hr.
  by destruct (mapM_res exercise_line (exercises w)).
Qed.

Lemma make_events_raises (start : datetime) (minutes : Z) (uuid4 : nat -> string)
      (plans : list WorkoutPlan) (i : nat) :
  forallb workout_ok plans = false ->
  raises (make_events start minutes uuid4 i plans).
Proof.
  revert i. induction plans as [|w plans IH]; intros i H; [done|].
  simpl in *. destruct (workout_ok w) eqn:Hw.
  - destruct (make_event start minutes (uuid4 i) (Z.of_nat i) w); [|done].
    simpl. specialize (IH (S i) H).
    by destruct (make_events start minutes uuid4 (S i) plans).
  - unfold make_event. pose proof (describe_raises w Hw) as Hr.
    by destruct (describe w).
Qed.

Lemma make_events_labels (start : datetime) (minutes : Z) (uuid4 : nat -> string)
      (plans : list WorkoutPlan) :
  forall (i : nat) (events : list Event),
    make_events start minutes uuid4 i plans = Ok events ->
    map ev_name events = map (fun w => "Workout: " ++ day w) plans
    /\ map ev_uid events = map uuid4 (seq i (length plans)).
Proof.
  induction plans as [|w plans IH]; intros i events; simpl.
  - by intros [= <-].
  - unfold make_event.
    destruct (describe w) as [text|]; [|done]. simpl.
    destruct (add_days start (Z.of_nat i)) as [t|]; [|done]. simpl.
    destruct (timedelta_minutes minutes) as [m|]; [|done]. simpl.
    destruct (make_events start minutes uuid4 (S i) plans) as [es|] eqn:Hes;
      [|done].
    simpl. intros [= <-]. destruct (IH (S i) es Hes) as [Hn Hu].
    simpl. by rewrite Hn, Hu.
Qed.

(** X7: when the export succeeds, the events follow the plan: the event at
    index i is named after the day of the plan at index i and carries the
    i-th identifier drawn, and the file is [output_dir] joined with
    [workout_calendar_filename]. *)
Theorem events_follow_the_plan
        (output_dir : string) (uuid4 : nat -> string) (write : file_writer)
        (plans : list WorkoutPlan) (start_date : datetime)
        (calendar_name : string) (minutes : Z)
        (events : list Event) (path : string) :
  create_workout_calendar output_dir uuid4 write plans start_date calendar_name
    minutes
  = Ok (events, path) ->
  map ev_name events = map (fun w => "Workout: " ++ day w) plans
  /\ map ev_uid events = map uuid4 (seq 0 (length plans))
  /\ path = path_join output_dir
              (workout_calendar_filename calendar_name start_date).
Proof.
  unfold create_workout_calendar.
  destruct (make_events start_date minutes uuid4 0 plans) as [es|] eqn:Hes;
    [|done].
  simpl. destruct (write _ es) as [[]|]; [|done]. simpl. intros [= <- <-].
  destruct (make_events_labels _ _ _ _ _ _ Hes) as [Hn Hu]. done.
Qed.

Lemma events_follow_the_plan_witness :
  exists events path,
    create_workout_calendar "calendars" fixed_uuid writable [push_day; pull_day]
      new_year_2024 "My Plan" 45 = Ok (events, path)
    /\ map ev_name events = ["Workout: Push"; "Workout: Pull"]
    /\ map ev_uid events = ["uid-0"; "uid-1"]
    /\ path = "calendars/My_Plan_20240101.ics".
Proof.
  eexists _, _. split; [reflexivity|].
  exact (events_follow_the_plan "calendars" fixed_uuid writable
           [push_day; pull_day] new_year_2024 "My Plan" 45 _ _ eq_refl).
Defined.

(** X8: the export of a plan in which some exercise lacks its name, its
    sets or its repetitions raises: no events are returned, whatever the
    other days are, and whatever the file system would do. *)
Theorem export_of_a_malformed_plan_raises
        (output_dir : string) (uuid4 : nat -> string) (write : file_writer)
        (plans : list WorkoutPlan) (start_date : datetime)
        (calendar_name : string) (minutes : Z) :
  forallb workout_ok plans = false ->
  raises (create_workout_calendar output_dir uuid4 write plans start_date
            calendar_name minutes).
Proof.
  intros H. unfold create_workout_calendar.
  pose proof (make_events_raises start_date minutes uuid4 plans 0 H) as Hr.
  by destruct (make_events start_date minutes uuid4 0 plans).
Qed.

Lemma export_of_a_malformed_plan_raises_witness :
  raises (create_workout_calendar "calendars" fixed_uuid writable
            [push_day; nameless_day]
            new_year_2024 default_calendar_name default_duration_minutes).
Proof.
  apply (export_of_a_malformed_plan_raises "calendars" fixed_uuid writable
           [push_day; nameless_day] new_year_2024 default_calendar_name
           default_duration_minutes).
  reflexivity.
Defined.

Lemma pad2_no_blank (n : Z) : all_chars not_blank (pad2 n) = true.
Proof.
  assert (H : all_chars not_blank (Py.str_of_int n) = true).
  { apply (all_chars_impl digit_or_minus); [|apply str_of_int_chars].
    intros c Hc. destruct c as [[] [] [] [] [] [] [] []]; vm_compute in *;
      congruence. }
  unfold pad2. destruct (n <? 10); [|done].
  by rewrite all_chars_app, H.
Qed.

(** X9: the name of the calendar file never contains a blank, whatever the
    calendar name is: the blanks of the name are replaced by underscores and
    the date is written in digits. *)
Theorem calendar_filename_has_no_blank
        (calendar_name : string) (start_date : datetime) :
  all_chars not_blank (workout_calendar_filename calendar_name start_date) = true.
Proof.
  unfold workout_calendar_filename, strftime_Ymd.
  rewrite !all_chars_app, replace_blank_no_blank, !pad2_no_blank.
  assert (H : all_chars not_blank (Py.str_of_int (year start_date)) = true).
  { apply (all_chars_impl digit_or_minus); [|apply str_of_int_chars].
    intros c Hc. destruct c as [[] [] [] [] [] [] [] []]; vm_compute in *;
      congruence. }
  by rewrite H.
Qed.

End CalendarEvents.

(* ===================================================================== *)
(** * The mock schedule                                                    *)
(* ===================================================================== *)

Section MockSchedule.
Import Datetime FitnessSchedule Spec Examples.

Lemma mapM_res_lookup {A B} (f : A -> res B) (l : list A) :
  forall (ys : list B) (i : nat) (y : B),
    mapM_res f l = Ok ys -> ys !! i = Some y ->
    exists x, l !! i = Some x /\ f x = Ok y.
Proof.
  induction l as [|x l IH]; intros ys i y; simpl.
  - intros [= <-] Hi. by rewrite lookup_nil in Hi.
  - destruct (f x) as [y0|] eqn:Hx; [|done]. simpl.
    destruct (mapM_res f l) as [ys0|] eqn:Hl; [|done]. simpl.
    intros [= <-]. destruct i as [|i]; simpl.
    + intros [= <-]. by exists x.
    + intros Hi. by apply (IH ys0).
Qed.

(** The seconds of a time of the day, split back into hours, minutes and
    seconds. *)
Lemma clock_split (h m sec : Z) :
  0 <= h < 24 -> 0 <= m < 60 -> 0 <= sec < 60 ->
  let r := h * 3600 + m * 60 + sec in
  r / 86400 = 0 /\ r mod 86400 = r
  /\ r / 3600 = h /\ r mod 3600 / 60 = m /\ r mod 60 = sec.
Proof.
  intros Hh Hm Hs r. subst r.
  assert (H1 : (h * 3600 + m * 60 + sec) / 86400 = 0) by (apply Z.div_small; lia).
  assert (H2 : (h * 3600 + m * 60 + sec) mod 86400 = h * 3600 + m * 60 + sec)
    by (apply Z.mod_small; lia).
  assert (H3 : (h * 3600 + m * 60 + sec) / 3600 = h)
    by (symmetry; apply (Z.div_unique _ 3600 h (m * 60 + sec)); lia).
  assert (H4 : (h * 3600 + m * 60 + sec) mod 3600 = m * 60 + sec)
    by (symmetry; apply (Z.mod_unique _ 3600 h (m * 60 + sec)); lia).
  assert (H5 : (m * 60 + sec) / 60 = m)
    by (symmetry; apply (Z.div_unique _ 60 m sec); lia).
  assert (H6 : (h * 3600 + m * 60 + sec) mod 60 = sec)
    by (symmetry; apply (Z.mod_unique _ 60 (h * 60 + m) sec); lia).
  rewrite H4, H5. done.
Qed.

(** [t + timedelta(days=d)] keeps the time of the day. *)
Lemma add_timedelta_days (t : datetime) (d : Z) :
  clock_ok t ->
  Z.abs d <= 999999999 ->
  0 < toordinal t + d <= MAXORDINAL ->
  add_timedelta t d 0 = Ok (on_day t (toordinal t + d)).
Proof.
  intros (Hh & Hm & Hs) Hd [Hlo Hhi]. unfold add_timedelta, on_day.
  change (0 / 86400) with 0. rewrite !Z.add_0_r.
  replace (999999999 <? Z.abs d) with false by (symmetry; apply Z.ltb_ge; lia).
  cbv zeta.
  destruct (clock_split (hour t) (minute t) (second t) Hh Hm Hs)
    as (H1 & H2 & H3 & H4 & H5).
  rewrite H1, H2, H3, H4, H5, Z.add_0_r.
  apply Z.ltb_lt in Hlo. apply Z.leb_le in Hhi. rewrite Hlo, Hhi. simpl.
  by destruct (ord2ymd (toordinal t + d)) as [[y m] dd].
Qed.

(** [t + timedelta(days=d, hours=1)] is the next hour of that day, or the
    first hour of the day after it. *)
Lemma add_timedelta_hour (t : datetime) (d : Z) :
  clock_ok t ->
  Z.abs d <= 999999999 ->
  0 < toordinal t + d -> toordinal t + d + 1 <= MAXORDINAL ->
  add_timedelta t d 3600 = Ok (hour_after t (toordinal t + d)).
Proof.
  intros (Hh & Hm & Hs) Hd Hlo Hhi. unfold add_timedelta, hour_after, on_day, with_hour.
  change (3600 / 86400) with 0. rewrite !Z.add_0_r.
  replace (999999999 <? Z.abs d) with false by (symmetry; apply Z.ltb_ge; lia).
  cbv zeta.
  destruct (Z.ltb_spec (hour t) 23) as [Hearly|Hlate].
  - replace (hour t * 3600 + minute t * 60 + second t + 3600)
      with ((hour t + 1) * 3600 + minute t * 60 + second t) by lia.
    destruct (clock_split (hour t + 1) (minute t) (second t)) as
      (H1 & H2 & H3 & H4 & H5); [lia|done|done|].
    rewrite H1, H2, H3, H4, H5, Z.add_0_r.
    replace (0 <? toordinal t + d) with true by (symmetry; apply Z.ltb_lt; lia).
    replace (toordinal t + d <=? MAXORDINAL) with true
      by (symmetry; apply Z.leb_le; lia).
    simpl. by destruct (ord2ymd (toordinal t + d)) as [[y m] dd].
  - assert (Hh23 : hour t = 23) by lia.
    destruct (clock_split 0 (minute t) (second t)) as
      (H1 & H2 & H3 & H4 & H5); [lia|done|done|].
    assert (Hq : (hour t * 3600 + minute t * 60 + second t + 3600) / 86400 = 1).
    { symmetry. apply (Z.div_unique _ 86400 1 (minute t * 60 + second t)); lia. }
    assert (Hr : (hour t * 3600 + minute t * 60 + second t + 3600) mod 86400
                 = 0 * 3600 + minute t * 60 + second t).
    { symmetry. apply (Z.mod_unique _ 86400 1 (minute t * 60 + second t)); lia. }
    rewrite Hq, Hr, H3, H4, H5.
    replace (0 <? toordinal t + d + 1) with true
      by (symmetry; apply Z.ltb_lt; lia).
    replace (toordinal t + d + 1 <=? MAXORDINAL) with true
      by (symmetry; apply Z.leb_le; lia).
    simpl. by destruct (ord2ymd (toordinal t + d + 1)) as [[y m] dd].
Qed.

Lemma on_day_ordinal (t : datetime) (o : Z) :
  toordinal (on_day t o) = o
  /\ (hour (on_day t o), minute (on_day t o), second (on_day t o),
      microsecond (on_day t o))
     = (hour t, minute t, second t, microsecond t).
Proof.
  unfold on_day, toordinal. pose proof (ord2ymd_ordinal o) as Ho.
  destruct (ord2ymd o) as [[y m] d]. split; [exact Ho|reflexivity].
Qed.

Lemma with_hour_fields (t : datetime) (h : Z) :
  toordinal (with_hour t h) = toordinal t
  /\ hour (with_hour t h) = h
  /\ (minute (with_hour t h), second (with_hour t h), microsecond (with_hour t h))
     = (minute t, second t, microsecond t).
Proof. destruct t. repeat split. Qed.

Lemma mock_entry_ok (start_date : datetime) (days i : Z) :
  clock_ok start_date ->
  0 < toordinal start_date ->
  toordinal start_date + days <= MAXORDINAL ->
  0 <= i < days ->
  mock_entry start_date i
  = Ok (schedule_entry ("Workout: Day " ++ Py.str_of_int (i + 1))
          (isoformat (on_day start_date (toordinal start_date + i)))
          (isoformat (hour_after start_date (toordinal start_date + i)))).
Proof.
  intros Hclock Hlo Hhi Hi. unfold mock_entry.
  rewrite add_timedelta_days, add_timedelta_hour
    by (first [done | unfold MAXORDINAL in *; lia]).
  reflexivity.
Qed.

(** X10: [get_workout_schedule] returns one entry per day asked for.  The
    entry at index i is labelled Day i+1; it starts on the i-th day after
    [start_date], at the time of the day of [start_date], microseconds
    included; and it ends one hour later: at the next hour of the same
    day, or, from 23 o'clock, at hour 0 of the following day.  The start
    is a [datetime] and the dates are ones [datetime] can hold. *)
Theorem mock_schedule_has_hourly_slots (start_date : datetime) (days : Z) :
  clock_ok start_date ->
  0 <= days ->
  0 < toordinal start_date ->
  toordinal start_date + days <= MAXORDINAL ->
  exists entries,
    get_workout_schedule start_date days = Ok entries
    /\ Z.of_nat (length entries) = days
    /\ forall (i : nat) (entry : json),
         entries !! i = Some entry ->
         let day_i := toordinal start_date + Z.of_nat i in
         let starts := on_day start_date day_i in
         let ends := hour_after start_date day_i in
         entry = schedule_entry
                   ("Workout: Day " ++ Py.str_of_int (Z.of_nat i + 1))
                   (isoformat starts) (isoformat ends)
         /\ toordinal starts = day_i
         /\ (hour starts, minute starts, second starts, microsecond starts)
            = (hour start_date, minute start_date, second start_date,
               microsecond start_date)
         /\ (if hour start_date <? 23
             then toordinal ends = day_i /\ hour ends = hour start_date + 1
             else toordinal ends = day_i + 1 /\ hour ends = 0)
         /\ (minute ends, second ends, microsecond ends)
            = (minute start_date, second start_date, microsecond start_date).
Proof.
  intros Hclock Hd Hlo Hhi. unfold get_workout_schedule.
  destruct (mapM_res_ok (mock_entry start_date) (seqZ 0 days))
    as (entries & Hent & Hlen).
  { apply Forall_forall. intros i Hi%elem_of_seqZ.
    rewrite (mock_entry_ok start_date days i) by (done || lia). eauto. }
  exists entries. split; [done|]. split.
  { rewrite Hlen, length_seqZ. lia. }
  intros i entry Hi. cbv zeta.
  destruct (mapM_res_lookup _ _ _ _ _ Hent Hi) as (x & Hx & Hfx).
  apply lookup_seqZ in Hx as [-> Hlt].
  rewrite (mock_entry_ok start_date days (0 + Z.of_nat i)) in Hfx by (done || lia).
  injection Hfx as <-. rewrite Z.add_0_l.
  split; [reflexivity|].
  destruct (on_day_ordinal start_date (toordinal start_date + Z.of_nat i))
    as [Ho Hc].
  destruct (on_day_ordinal start_date (toordinal start_date + Z.of_nat i + 1))
    as [Ho' Hc'].
  unfold hour_after.
  set (X := on_day start_date (toordinal start_date + Z.of_nat i)) in *.
  set (X' := on_day start_date (toordinal start_date + Z.of_nat i + 1)) in *.
  clearbody X X'.
  injection Hc as Hh Hm Hs Hu. injection Hc' as Hh' Hm' Hs' Hu'.
  split; [exact Ho|]. split; [by rewrite Hh, Hm, Hs, Hu|].
  destruct (hour start_date <? 23).
  - destruct (with_hour_fields X (hour start_date + 1)) as (-> & -> & ->).
    by rewrite Ho, Hm, Hs, Hu.
  - destruct (with_hour_fields X' 0) as (-> & -> & ->).
    by rewrite Ho', Hm', Hs', Hu'.
Qed.

Lemma mock_schedule_has_hourly_slots_witness :
  get_workout_schedule new_years_eve 2
  = Ok [ schedule_entry "Workout: Day 1" "2024-12-31T23:30:00" "2025-01-01T00:30:00";
         schedule_entry "Workout: Day 2" "2025-01-01T23:30:00" "2025-01-02T00:30:00" ]
  /\ exists entries,
       get_workout_schedule new_years_eve 2 = Ok entries
       /\ Z.of_nat (length entries) = 2.
Proof.
  split; [reflexivity|].
  assert (H0 : clock_ok new_years_eve) by (unfold clock_ok; simpl; lia).
  assert (H1 : 0 <= 2) by lia.
  assert (H2 : 0 < toordinal new_years_eve) by reflexivity.
  assert (H3 : toordinal new_years_eve + 2 <= MAXORDINAL)
    by (vm_compute; discriminate).
  destruct (mock_schedule_has_hourly_slots new_years_eve 2 H0 H1 H2 H3)
    as (entries & He & Hl & _).
  eauto.
Defined.

End MockSchedule.

(* ===================================================================== *)
(** * Persistence Gateway: what leaves it                                  *)
(* ===================================================================== *)

Section GatewayBoundary.
Import DatabaseManager Examples.

Lemma absorb_no_driver_error {A} (sentinel : A) (body : res A) (e : exn) :
  absorb sentinel body = Raise e -> exn_class_of e <> Psycopg2Error.
Proof.
  unfold absorb, catch_only. destruct body as [a|e0]; [done|].
  case_bool_decide as Hc; [done|]. intros [= <-] He. apply Hc.
  rewrite He. set_solver.
Qed.

Lemma absorb_rollback_passes {A} (c : connection) (sentinel : A) (body : res A)
      (e : exn) :
  exn_class_of e <> Psycopg2Error ->
  body = Raise e -> absorb_rollback c sentinel body = Raise e.
Proof.
  intros He ->. unfold absorb_rollback, catch_only.
  rewrite bool_decide_eq_false_2; [done|].
  intros Hin. apply He. by apply list_elem_of_singleton in Hin.
Qed.

(** X11: no [psycopg2.Error] ever leaves the three read operations of the
    gateway, whatever the connection does: they have no rollback that could
    fail.  And in the four operations that write, an exception of another
    class leaves the gateway as it was raised. *)
Theorem reads_never_leak_driver_errors
        (c : connection) (e : exn)
        (username : string) (user_id : Z) (profile : gmap string json)
        (name : string) (data : json) :
  (get_profile (Some c) user_id = Raise e -> exn_class_of e <> Psycopg2Error)
  /\ (get_workout_plans (Some c) user_id = Raise e ->
      exn_class_of e <> Psycopg2Error)
  /\ (get_diet_plans (Some c) user_id = Raise e ->
      exn_class_of e <> Psycopg2Error)
  /\ (exn_class_of e <> Psycopg2Error ->
      (get_or_create_user_body c username = Raise e ->
       get_or_create_user (Some c) username = Raise e)
      /\ (save_profile_body c user_id profile = Raise e ->
          save_profile (Some c) user_id profile = Raise e)
      /\ (insert_plan_body c (InsertWorkoutPlan user_id name data) = Raise e ->
          save_workout_plan (Some c) user_id name data = Raise e)
      /\ (insert_plan_body c (InsertDietPlan user_id name data) = Raise e ->
          save_diet_plan (Some c) user_id name data = Raise e)).
Proof.
  split; [apply absorb_no_driver_error|].
  split; [apply absorb_no_driver_error|].
  split; [apply absorb_no_driver_error|].
  intros He. repeat split; intros Hb; simpl; by apply absorb_rollback_passes.
Qed.

Lemma reads_never_leak_driver_errors_witness :
  get_workout_plans (Some lost_connection) 3 = Ok []
  /\ get_or_create_user (Some nul_rejecting) nul_name = Raise nul_text.
Proof.
  destruct (reads_never_leak_driver_errors nul_rejecting nul_text nul_name 3 ∅
              "Plan" (JList [])) as (_ & _ & _ & Hpass).
  destruct Hpass as (Huser & _); [discriminate|].
  split; [reflexivity | exact (Huser eq_refl)].
Defined.

End GatewayBoundary.

(* ===================================================================== *)
(** * The create rules of the command interpreters                        *)
(* ===================================================================== *)

Section CreateCommands.
Import FitnessAgent Spec Examples.






End CreateCommands.

(* ===================================================================== *)
(** * The save and list rules of [app.py]                                  *)
(* ===================================================================== *)

Section SaveCommands.
Import FitnessAgent Datetime DatabaseManager Spec Examples.
Local Arguments Ascii.eqb : simpl never.
Local Arguments Py.isspace : simpl never.

Lemma split_go_nonempty (sep : string) (s : string) :
  forall (skip : nat) (cur : string), Py.split_go sep skip cur s <> [].
Proof.
  induction s as [|c s IH]; intros skip cur; destruct skip; simpl; try done.
  destruct (Py.startswith (String c s) sep); [done|apply IH].
Qed.

(** A text that contains the separator is cut into two pieces at least. *)
Lemma split_go_contains (a : ascii) (sep : string) (s : string) :
  forall cur : string,
    Py.contains (String a sep) s = true ->
    exists first second rest,
      Py.split_go (String a sep) 0 cur s = first :: second :: rest.
Proof.
  induction s as [|c s IH]; intros cur Hc; [done|].
  change (Py.split_go (String a sep) 0 cur (String c s))
    with (if Py.startswith (String c s) (String a sep)
          then String.rev cur
               :: Py.split_go (String a sep)
                    (Nat.pred (String.length (String a sep))) EmptyString s
          else Py.split_go (String a sep) 0 (String c cur) s).
  change (Py.contains (String a sep) (String c s))
    with (if Py.startswith (String c s) (String a sep) then true
          else Py.contains (String a sep) s) in Hc.
  destruct (Py.startswith (String c s) (String a sep)).
  - pose proof (split_go_nonempty (String a sep) s
                  (Nat.pred (String.length (String a sep))) EmptyString) as Hne.
    destruct (Py.split_go _ _ _ s) as [|second rest]; [done|]. eauto.
  - by apply IH.
Qed.

Lemma name_param_cases (default message : string) :
  (Py.contains "name:" (Py.lower message) = false
   /\ Params.name_param default message = Ok default)
  \/ exists piece,
       Py.split "name:" (Py.lower message) !! 1%nat = Some piece
       /\ Params.name_param default message = Ok (Py.strip piece).
Proof.
  unfold Params.name_param, Params.rest_after, Params.item.
  destruct (Py.contains "name:" (Py.lower message)) eqn:Hc; [right|by left].
  destruct (split_go_contains _ _ _ EmptyString Hc) as (x & piece & rest & Hs).
  unfold Py.split. rewrite Hs. simpl. eauto.
Qed.

Lemma startswith_prefix (p r : string) : Py.startswith (p ++ r) p = true.
Proof.
  induction p as [|a p IH]; [done|].
  rewrite sapp_cons. simpl. by rewrite Ascii.eqb_refl.
Qed.

Lemma lower_app (s t : string) : Py.lower (s ++ t) = Py.lower s ++ Py.lower t.
Proof.
  induction s as [|c s IH]; [done|].
  rewrite sapp_cons. simpl. by rewrite IH, sapp_cons.
Qed.

(** Whether a text starts with [p] is decided by its first characters. *)
Lemma startswith_within (p : string) :
  forall x y : string,
    (String.length p <= String.length x)%nat ->
    Py.startswith (x ++ y) p = Py.startswith x p.
Proof.
  induction p as [|a p IH]; intros x y Hlen; [done|].
  destruct x as [|b x]; [simpl in Hlen; lia|].
  rewrite sapp_cons. simpl. destruct (Ascii.eqb a b); [|done].
  apply IH. simpl in Hlen. lia.
Qed.

Lemma slength_app (s t : string) :
  String.length (s ++ t) = (String.length s + String.length t)%nat.
Proof.
  induction s as [|c s IH]; [done|]. rewrite sapp_cons. simpl. by rewrite IH.
Qed.

Lemma contains_cons (sep : string) (c : ascii) (s : string) :
  Py.contains sep (String c s)
  = if Py.startswith (String c s) sep then true else Py.contains sep s.
Proof. reflexivity. Qed.

Lemma contains_after (sep before after : string) :
  Py.contains sep (before ++ sep ++ after) = true.
Proof.
  induction before as [|c before IH].
  - rewrite sapp_nil_l. destruct sep as [|a sep]; [by destruct after|].
    rewrite sapp_cons, contains_cons, <- sapp_cons.
    by rewrite startswith_prefix.
  - rewrite sapp_cons, contains_cons, IH. by destruct (Py.startswith _ _).
Qed.

(** A text in which the separator does not occur is one piece. *)
Lemma split_go_absent (a : ascii) (sep : string) (s : string) :
  forall cur : string,
    Py.contains (String a sep) s = false ->
    Py.split_go (String a sep) 0 cur s = [String.rev cur ++ s].
Proof.
  induction s as [|c s IH]; intros cur Hc.
  - simpl. by rewrite sapp_nil_r.
  - rewrite contains_cons in Hc.
    change (Py.split_go (String a sep) 0 cur (String c s))
      with (if Py.startswith (String c s) (String a sep)
            then String.rev cur
                 :: Py.split_go (String a sep)
                      (Nat.pred (String.length (String a sep))) EmptyString s
            else Py.split_go (String a sep) 0 (String c cur) s).
    destruct (Py.startswith (String c s) (String a sep)); [done|].
    rewrite (IH _ Hc), rev_cons, sapp_assoc. done.
Qed.

(** The first [name:] of a text cuts it into what stands before it and
    the pieces of what follows. *)
Lemma split_go_first_name (before after : string) :
  forall cur : string,
    Py.contains "name:" (before ++ "name") = false ->
    Py.split_go "name:" 0 cur (before ++ "name:" ++ after)
    = (String.rev cur ++ before) :: Py.split_go "name:" 0 "" after.
Proof.
  induction before as [|c before IH]; intros cur Hc.
  - rewrite sapp_nil_l, sapp_nil_r. reflexivity.
  - rewrite sapp_cons in Hc. rewrite contains_cons in Hc.
    destruct (Py.startswith (String c (before ++ "name")) "name:") eqn:Hs;
      [done|].
    assert (Hs' : Py.startswith (String c (before ++ "name:" ++ after)) "name:"
                  = false).
    { replace (String c (before ++ "name:" ++ after))
        with (String c (before ++ "name") ++ (":" ++ after))
        by (rewrite sapp_cons, sapp_assoc; reflexivity).
      rewrite startswith_within; [done|].
      simpl. rewrite slength_app. simpl. lia. }
    rewrite sapp_cons.
    change (Py.split_go "name:" 0 cur (String c (before ++ "name:" ++ after)))
      with (if Py.startswith (String c (before ++ "name:" ++ after)) "name:"
            then String.rev cur
                 :: Py.split_go "name:" 4 EmptyString (before ++ "name:" ++ after)
            else Py.split_go "name:" 0 (String c cur)
                   (before ++ "name:" ++ after)).
    rewrite Hs', (IH _ Hc), rev_cons, sapp_assoc. done.
Qed.

(** X14: the name a plan is saved under.  A save command never fails on
    its name.  Without [name:] in the message it is the default name.
    With it, the name is what was typed after the first [name:] (written
    in any case), in small letters and without the blanks around it: a
    name typed in capitals is stored in small letters.  Whenever the
    message has a [name:], the name taken is in lower case and has no
    blank at either end. *)
Theorem saved_name_is_lower_case (default message : string) :
  exists name,
    Params.name_param default message = Ok name
    /\ (Py.contains "name:" (Py.lower message) = false -> name = default)
    /\ (forall before key typed : string,
          message = before ++ key ++ typed ->
          Py.lower key = "name:" ->
          Py.contains "name:" (Py.lower before ++ "name") = false ->
          Py.contains "name:" (Py.lower typed) = false ->
          name = Py.strip (Py.lower typed))
    /\ (Py.contains "name:" (Py.lower message) = true ->
        Py.lower name = name /\ Py.strip name = name).
Proof.
  destruct (name_param_cases default message) as [[Hc Hn]|(piece & Hp & Hn)].
  - exists default. split; [done|]. split; [done|]. split.
    + intros before key typed -> Hkey Hbefore Htyped. exfalso.
      rewrite !lower_app, Hkey, contains_after in Hc. done.
    + by rewrite Hc.
  - exists (Py.strip piece). split; [done|]. split; [|split].
    + intros Hc. exfalso. revert Hp. unfold Py.split.
      by rewrite (split_go_absent _ _ _ _ Hc).
    + intros before key typed -> Hkey Hbefore Htyped. f_equal.
      revert Hp. rewrite !lower_app, Hkey. unfold Py.split.
      rewrite (split_go_first_name _ _ _ Hbefore).
      rewrite (split_go_absent _ _ _ _ Htyped).
      by intros [= <-].
    + intros _. split; [|apply strip_idem].
      apply lower_fixed_text, strip_all_chars.
      pose proof (split_all_chars lower_fixed "name:" (Py.lower message)
                    (lower_is_lower message)) as Hall.
      rewrite Forall_lookup in Hall. exact (Hall _ _ Hp).
Qed.

Lemma saved_name_is_lower_case_witness :
  App.save_workout_name "Save Workout Name: Leg Day " [push_day] = Ok "leg day"
  /\ Py.lower "leg day" = "leg day".
Proof.
  destruct (saved_name_is_lower_case "1-Day Workout Plan"
              "Save Workout Name: Leg Day ") as (name & Hn & _ & Htyped & Hlow).
  assert (Hname : name = Py.strip (Py.lower " Leg Day ")).
  { apply (Htyped "Save Workout " "Name:" " Leg Day "); reflexivity. }
  change (Py.strip (Py.lower " Leg Day ")) with "leg day" in Hname.
  subst name. split; [exact Hn|]. apply Hlow. reflexivity.
Defined.

Lemma name_param_returns (default message : string) :
  exists name, Params.name_param default message = Ok name.
Proof.
  destruct (name_param_cases default message) as [[_ ->]|(piece & _ & ->)]; eauto.
Qed.

(** X15: what a save command of [app.py] does to the session.  It changes
    at most the saved list of its own kind, and only to the non-empty list
    the gateway reads back after the insert: the current plans, the profile
    and the other saved list stay.  Without a database connection the reply
    is the failure text and the session is as before; and an exception that
    leaves the gateway is answered with its text. *)
Theorem save_changes_only_the_saved_list
        (today : datetime) (message : string) (s : App.session) :
  (snd (App.save_workout_command message s) = s
   \/ exists l, l <> []
        /\ get_workout_plans (App.db_manager s) (App.user_id s) = Ok l
        /\ snd (App.save_workout_command message s) = App.set_saved_workouts s l)
  /\ (snd (App.save_diet_command today message s) = s
      \/ exists l, l <> []
           /\ get_diet_plans (App.db_manager s) (App.user_id s) = Ok l
           /\ snd (App.save_diet_command today message s)
              = App.set_saved_diets s l)
  /\ (forall p ps,
        App.current_workout_plan s = Some (p :: ps) ->
        (App.db_manager s = None ->
         App.save_workout_command message s
         = (App.cross_mark ++ " Failed to save workout plan", s))
        /\ (forall name e,
              App.save_workout_name message (p :: ps) = Ok name ->
              DatabaseManager.save_workout_plan (App.db_manager s) (App.user_id s)
                name (JList (map WorkoutPlan_model_dump (p :: ps))) = Raise e ->
              App.save_workout_command message s
              = (App.cross_mark ++ " " ++ exn_str e, s)))
  /\ (forall p ps,
        App.current_diet_plan s = Some (p :: ps) ->
        (App.db_manager s = None ->
         App.save_diet_command today message s
         = (App.cross_mark ++ " Failed to save diet plan", s))
        /\ (forall name e,
              App.save_diet_name today message = Ok name ->
              DatabaseManager.save_diet_plan (App.db_manager s) (App.user_id s)
                name (JList (map DietPlan_model_dump (p :: ps))) = Raise e ->
              App.save_diet_command today message s
              = (App.cross_mark ++ " " ++ exn_str e, s))).
Proof.
  split; [|split; [|split]].
  - unfold App.save_workout_command, App.save_workout_name.
    destruct (App.current_workout_plan s) as [[|p ps]|] eqn:Hcur; [by left| |by left].
    destruct (name_param_returns
                (Py.str_of_int (Z.of_nat (length (p :: ps))) ++ "-Day Workout Plan")
                message) as [name ->].
    unfold App.save_workout_plan. rewrite Hcur.
    destruct (DatabaseManager.save_workout_plan _ _ _ _) as [id|e]; [|by left].
    destruct (0 <? id); [|by left].
    destruct (get_workout_plans _ _) as [[|q l]|e] eqn:Hget; [by left| |by left].
    right. exists (q :: l). done.
  - unfold App.save_diet_command, App.save_diet_name.
    destruct (App.current_diet_plan s) as [[|p ps]|] eqn:Hcur; [by left| |by left].
    destruct (name_param_returns
                ("Diet Plan (" ++ strftime_Y_m_d today ++ ")") message)
      as [name ->].
    unfold App.save_diet_plan. rewrite Hcur.
    destruct (DatabaseManager.save_diet_plan _ _ _ _) as [id|e]; [|by left].
    destruct (0 <? id); [|by left].
    destruct (get_diet_plans _ _) as [[|q l]|e] eqn:Hget; [by left| |by left].
    right. exists (q :: l). done.
  - intros p ps Hcur. split.
    + intros Hconn. unfold App.save_workout_command, App.save_workout_name.
      rewrite Hcur.
      destruct (name_param_returns
                  (Py.str_of_int (Z.of_nat (length (p :: ps))) ++ "-Day Workout Plan")
                  message) as [name ->].
      unfold App.save_workout_plan. rewrite Hcur, Hconn. reflexivity.
    + intros name e Hname Hsave. unfold App.save_workout_command.
      rewrite Hcur, Hname. unfold App.save_workout_plan. rewrite Hcur, Hsave.
      reflexivity.
  - intros p ps Hcur. split.
    + intros Hconn. unfold App.save_diet_command, App.save_diet_name.
      rewrite Hcur.
      destruct (name_param_returns
                  ("Diet Plan (" ++ strftime_Y_m_d today ++ ")") message)
        as [name ->].
      unfold App.save_diet_plan. rewrite Hcur, Hconn. reflexivity.
    + intros name e Hname Hsave. unfold App.save_diet_command.
      rewrite Hcur, Hname. unfold App.save_diet_plan. rewrite Hcur, Hsave.
      reflexivity.
Qed.

End SaveCommands.

(* ===================================================================== *)
(** * Listing and loading saved plans                                      *)
(* ===================================================================== *)

Section ListAndLoad.
Import FitnessAgent Datetime DatabaseManager Spec Examples.







End ListAndLoad.

(* ===================================================================== *)
(** * Profile updates, for every message                                   *)
(* ===================================================================== *)

Section ProfileUpdates.
Import FitnessAgent Spec Examples.
Local Arguments Ascii.eqb : simpl never.
Local Arguments Py.isspace : simpl never.

Lemma dict_set_keys {V} (k : string) (v : V) (d : list (string * V)) :
  (Dict.set k v d).*1 = if Dict.mem k d then d.*1 else (d.*1 ++ [k])%list.
Proof.
  unfold Dict.mem. induction d as [|[k' v'] d IH]; [done|].
  change (Dict.set k v ((k', v') :: d))
    with (if String.eqb k k' then (k', v) :: d else (k', v') :: Dict.set k v d).
  change (Dict.get k ((k', v') :: d))
    with (if String.eqb k k' then Some v' else Dict.get k d).
  destruct (String.eqb k k') eqn:Hk; [done|]. rewrite !fmap_cons, IH.
  by destruct (Dict.get k d).
Qed.

Lemma dict_set_nodup {V} (k : string) (v : V) (d : list (string * V)) :
  NoDup d.*1 -> NoDup (Dict.set k v d).*1.
Proof.
  intros Hd. rewrite dict_set_keys. unfold Dict.mem.
  destruct (Dict.get k d) eqn:Hk; [done|].
  apply NoDup_app. split; [done|]. split; [|apply NoDup_singleton].
  intros x Hx ->%list_elem_of_singleton. by apply dict_get_none in Hk.
Qed.

Lemma dict_set_elem {V} (k : string) (v : V) (d : list (string * V))
      (kv : string * V) :
  kv ∈ Dict.set k v d -> kv ∈ d \/ kv = (k, v).
Proof.
  induction d as [|[k' v'] d IH]; simpl.
  - intros ->%list_elem_of_singleton. by right.
  - destruct (String.eqb k k') eqn:Hk.
    + apply String.eqb_eq in Hk as <-.
      intros [->|H]%elem_of_cons; [by right|]. left. by apply list_elem_of_further.
    + intros [->|H]%elem_of_cons; [left; apply list_elem_of_here|].
      destruct (IH H) as [H'|H']; [left; by apply list_elem_of_further|by right].
Qed.

(** Merging updates with distinct keys: a named key gets its new value,
    every other key keeps its own. *)
Lemma merge_lookup (d : list (string * string)) (k : string) :
  forall p : gmap string json,
    NoDup d.*1 ->
    Params.merge d p !! k
    = match Dict.get k d with Some v => Some (JStr v) | None => p !! k end.
Proof.
  unfold Params.merge. induction d as [|[k0 v0] d IH]; intros p Hd; [done|].
  simpl in *. apply NoDup_cons in Hd as [Hk0 Hd]. rewrite IH by done.
  destruct (String.eqb k k0) eqn:Hk.
  - apply String.eqb_eq in Hk as ->.
    apply dict_get_none in Hk0. rewrite Hk0. by rewrite lookup_insert_eq.
  - apply String.eqb_neq in Hk. destruct (Dict.get k d); [done|].
    by rewrite lookup_insert_ne.
Qed.

(** The piece before the first colon has no colon. *)
Lemma split1_go_key (s : string) :
  forall cur key value : string,
    all_chars not_colon cur = true ->
    Py.split1_go ":" cur s = [key; value] -> all_chars not_colon key = true.
Proof.
  induction s as [|c s IH]; intros cur key value Hcur; [done|].
  change (Py.split1_go ":" cur (String c s))
    with (if (if Ascii.eqb ":" c then true else false)
          then [String.rev cur; Py.drop 1 (String c s)]
          else Py.split1_go ":" (String c cur) s).
  destruct (Ascii.eqb ":" c) eqn:Hc.
  - intros [= <- _]. by rewrite all_chars_rev.
  - apply IH. simpl. rewrite Hcur, andb_true_r. unfold not_colon.
    by rewrite Ascii.eqb_sym, Hc.
Qed.

Lemma add_pair_invariant (updates : list (string * string)) (pair : string) :
  NoDup updates.*1 /\ Forall tidy updates ->
  NoDup (Params.add_pair updates pair).*1
  /\ Forall tidy (Params.add_pair updates pair).
Proof.
  intros [Hnd Hall]. unfold Params.add_pair.
  destruct (Py.contains ":" pair); [|done].
  destruct (Py.split1 ":" pair) as [|key [|value [|]]] eqn:Hs; try done.
  split; [by apply dict_set_nodup|].
  apply Forall_forall. intros kv [Hkv| ->]%dict_set_elem.
  - rewrite Forall_forall in Hall. by apply Hall.
  - unfold tidy. simpl. split; [apply strip_idem|]. split; [apply strip_idem|].
    apply strip_all_chars. by apply (split1_go_key pair EmptyString key value).
Qed.

Lemma parse_updates_invariant (message : string) :
  NoDup (Params.parse_updates message).*1
  /\ Forall tidy (Params.parse_updates message).
Proof.
  unfold Params.parse_updates.
  generalize (Py.split "," (Py.strip (Py.replace "update profile" "" message))).
  intros pieces.
  assert (H : NoDup (@nil (string * string)).*1 /\ Forall tidy []).
  { split; [apply NoDup_nil_2|constructor]. }
  revert H. generalize (@nil (string * string)).
  induction pieces as [|pair pieces IH]; intros acc Hacc; [done|].
  simpl. by apply IH, add_pair_invariant.
Qed.

(** X19: a profile update is a merge, for every message and in both
    interpreters: a key named in the message gets the value given for it,
    as a text, and every other key of the stored profile keeps its value.
    The keys and values are stored without blanks around them, and a key
    never holds a colon. *)
Theorem profile_update_is_a_merge
        (message : string) (s : App.session) (c : InteractiveChat.chat)
        (k : string) :
  let updates := Params.parse_updates message in
  let merged (p : gmap string json) : option json :=
    match Dict.get k updates with Some v => Some (JStr v) | None => p !! k end in
  App.user_profile (snd (App.update_profile_command message s)) !! k
  = merged (App.user_profile s)
  /\ InteractiveChat.user_profile
       (snd (InteractiveChat.handle_profile_update message c)) !! k
     = merged (InteractiveChat.user_profile c)
  /\ (forall v, Dict.get k updates = Some v ->
                Py.strip k = k /\ Py.strip v = v /\ all_chars not_colon k = true).
Proof.
  intros updates merged. subst updates merged.
  destruct (parse_updates_invariant message) as [Hnd Hall].
  split; [|split].
  - unfold App.update_profile_command.
    destruct (Params.parse_updates message) as [|u us] eqn:Hu; [done|].
    rewrite <- (merge_lookup (u :: us) k (App.user_profile s) Hnd).
    unfold App.update_profile.
    destruct (DatabaseManager.save_profile _ _ _) as [[]|]; reflexivity.
  - rewrite <- (merge_lookup _ k (InteractiveChat.user_profile c) Hnd).
    unfold InteractiveChat.handle_profile_update.
    destruct (if 0 <? _ then _ else _); reflexivity.
  - intros v Hv%dict_get_some. rewrite Forall_forall in Hall.
    exact (Hall _ Hv).
Qed.

Lemma profile_update_is_a_merge_witness :
  App.user_profile
    (snd (App.update_profile_command "update profile Age : 31 , age:32"
            fresh_session)) !! "Age"
  = Some (JStr "31")
  /\ Py.strip "Age" = "Age".
Proof.
  destruct (profile_update_is_a_merge "update profile Age : 31 , age:32"
              fresh_session fresh_chat "Age") as (Happ & _ & Htidy).
  split; [exact Happ|]. destruct (Htidy "31" eq_refl) as (Hk & _). exact Hk.
Defined.

Lemma no_colon_no_update (pieces : list string) :
  Forall (fun piece => all_chars not_colon piece = true) pieces ->
  forall acc, fold_left Params.add_pair pieces acc = acc.
Proof.
  induction 1 as [|piece pieces Hp _ IH]; intros acc; [done|].
  simpl. rewrite IH. unfold Params.add_pair. by rewrite no_colon_contains.
Qed.

(** X20: an update command whose message has no colon names no pair.  The
    rule of [app.py] answers with the request to specify what to update
    and leaves the session as it is; the handler of [interactive_chat.py]
    leaves the stored profile as it is. *)
Theorem update_without_a_pair_changes_nothing
        (message : string) (s : App.session) (c : InteractiveChat.chat) :
  Py.contains ":" message = false ->
  Params.parse_updates message = []
  /\ App.update_profile_command message s
     = ("Please specify what to update, for example: update profile age: 30, weight: 70kg, goals: lose weight", s)
  /\ InteractiveChat.user_profile
       (snd (InteractiveChat.handle_profile_update message c))
     = InteractiveChat.user_profile c.
Proof.
  intros Hc.
  assert (Hp : Params.parse_updates message = []).
  { unfold Params.parse_updates. apply no_colon_no_update.
    apply split_all_chars, strip_all_chars. unfold Py.replace.
    by apply replace_go_deletes, contains_colon_false. }
  split; [done|]. split.
  - unfold App.update_profile_command. by rewrite Hp.
  - unfold InteractiveChat.handle_profile_update. rewrite Hp.
    destruct (if 0 <? _ then _ else _); reflexivity.
Qed.

Lemma update_without_a_pair_changes_nothing_witness :
  Params.parse_updates "update profile age 31, goals lose fat" = [].
Proof.
  destruct (update_without_a_pair_changes_nothing
              "update profile age 31, goals lose fat" fresh_session fresh_chat
              eq_refl) as (Hp & _).
  exact Hp.
Defined.

End ProfileUpdates.

(* ===================================================================== *)
(** * The two interpreters read the same commands                          *)
(* ===================================================================== *)

Section Routing.
Import Spec Examples.

Ltac prefixed H :=
  apply startswith_app in H as [? ->]; vm_compute; reflexivity.

Ltac equal_to H :=
  apply String.eqb_eq in H as ->; vm_compute; reflexivity.

(** X21: a message that [interactive_chat.py] gives to one of the handlers
    both interpreters have is given to the same rule by [app.py], although
    [app.py] tests shorter prefixes and in another order. *)
Theorem interpreters_agree_on_commands (message : string) (c : App.command) :
  app_rule (InteractiveChat.route message) = Some c -> App.dispatch message = c.
Proof.
  unfold InteractiveChat.route, App.dispatch. cbv zeta.
  generalize (Py.lower message). intros m.
  destruct (Py.startswith m "create workout plan") eqn:H1;
    [intros [= <-]; prefixed H1|].
  destruct (Py.startswith m "create diet plan") eqn:H2;
    [intros [= <-]; prefixed H2|].
  destruct (Py.startswith m "schedule workout") eqn:H3;
    [intros [= <-]; prefixed H3|].
  destruct (Py.startswith m "export calendar") eqn:H4;
    [intros [= <-]; prefixed H4|].
  destruct (Py.startswith m "create calendar") eqn:H5;
    [intros [= <-]; prefixed H5|].
  destruct (Py.startswith m "view profile") eqn:H6;
    [intros [= <-]; prefixed H6|].
  destruct (Py.startswith m "update profile") eqn:H7;
    [intros [= <-]; prefixed H7|].
  destruct (Py.startswith m "save workout") eqn:H8;
    [intros [= <-]; prefixed H8|].
  destruct (Py.startswith m "save diet") eqn:H9;
    [intros [= <-]; prefixed H9|].
  destruct (Py.startswith m "list workout plans") eqn:H10;
    [intros [= <-]; prefixed H10|].
  destruct (String.eqb m "list workouts") eqn:H11;
    [intros [= <-]; equal_to H11|].
  destruct (Py.startswith m "list diet plans") eqn:H12;
    [intros [= <-]; prefixed H12|].
  destruct (String.eqb m "list diets") eqn:H13;
    [intros [= <-]; equal_to H13|].
  rewrite !orb_false_l. destruct (Py.startswith m "help"); [simpl; discriminate|].
  destruct (String.eqb m "exit" || String.eqb m "quit"); simpl; discriminate.
Qed.

Lemma interpreters_agree_on_commands_witness :
  App.dispatch "Create Calendar name: Spring" = App.ExportCalendar.
Proof.
  apply (interpreters_agree_on_commands "Create Calendar name: Spring").
  reflexivity.
Defined.

(** X22: the chat context of [app.py] is the end of the history: nothing
    when the history has fewer than two messages, otherwise its last three
    messages, or both of them when there are two. *)
Theorem recent_context_is_the_end_of_the_history
        (chat_messages : list (string * string)) :
  let context := App.get_recent_chat_context chat_messages in
  (length chat_messages < 2 -> context = [])%nat
  /\ (2 <= length chat_messages ->
      length context = Nat.min 3 (length chat_messages)
      /\ chat_messages
         = (take (length chat_messages - 3) chat_messages ++ context)%list)%nat.
Proof.
  intros context. subst context. unfold App.get_recent_chat_context.
  split.
  - intros Hl. by rewrite (proj2 (Nat.ltb_lt _ _) Hl).
  - intros Hl. rewrite (proj2 (Nat.ltb_ge _ _) Hl).
    split; [rewrite length_drop; lia|]. by rewrite take_drop.
Qed.

Lemma recent_context_is_the_end_of_the_history_witness :
  App.get_recent_chat_context
    [("user", "hi"); ("assistant", "hello"); ("user", "help"); ("assistant", "ok")]
  = [("assistant", "hello"); ("user", "help"); ("assistant", "ok")].
Proof.
  destruct (recent_context_is_the_end_of_the_history
              [("user", "hi"); ("assistant", "hello"); ("user", "help");
               ("assistant", "ok")]) as (_ & Hlong).
  destruct Hlong as (_ & Hsplit); [simpl; lia|].
  by apply (app_inv_head [("user", "hi")]).
Defined.

End Routing.

(* ===================================================================== *)
(** * Plan validation                                                      *)
(* ===================================================================== *)

Section Validation.
Import FitnessAgent Spec Examples.

(** X23: [validate_workout_plan] reports a plan as valid only on the word
    of the backend: the result is [True] only when the answer decodes to an
    object whose [is_valid] is [True].  An answer that cannot be decoded,
    that is no object, or that has no [is_valid], gives [False]. *)
Theorem plan_is_valid_only_on_the_backends_word
        (llm : validate_backend) (plan : list WorkoutPlan) :
  (validate_workout_plan llm plan = JBool true ->
   exists validation,
     llm plan = Ok (JDict validation)
     /\ Dict.get "is_valid" validation = Some (JBool true))
  /\ (raises (llm plan) -> validate_workout_plan llm plan = JBool false)
  /\ (forall data, llm plan = Ok data ->
        (forall validation, data <> JDict validation) ->
        validate_workout_plan llm plan = JBool false)
  /\ (forall validation, llm plan = Ok (JDict validation) ->
        Dict.mem "is_valid" validation = false ->
        validate_workout_plan llm plan = JBool false).
Proof.
  unfold validate_workout_plan, Dict.mem. split; [|split; [|split]].
  - destruct (llm plan) as [[| | | | | |validation]|]; try discriminate.
    destruct (Dict.get "is_valid" validation) eqn:Hv; [|discriminate].
    intros ->. eauto.
  - by destruct (llm plan).
  - intros data -> Hno. destruct data; try done. by destruct (Hno d).
  - intros validation -> Hmem. by destruct (Dict.get "is_valid" validation).
Qed.

Lemma plan_is_valid_only_on_the_backends_word_witness :
  validate_workout_plan (fun _ => Raise decode_error) [push_day] = JBool false.
Proof.
  destruct (plan_is_valid_only_on_the_backends_word
              (fun _ => Raise decode_error) [push_day]) as (_ & Hraise & _).
  exact (Hraise I).
Defined.

End Validation.
